(** * Volatility-arbitrage strategy: indicators and per-symbol decision engine

    A shallow embedding of [Indicators.py] and [AssetStrategy.py].

    Numbers.  Prices, quantities and configuration fractions are Python
    floats (binary64) in the source.  A float is embedded as the rational
    [Q] it stands for; comparisons of floats are comparisons of these
    rationals, and an arithmetic operation on floats is the exact
    operation followed by the rounding of binary64 (to nearest, ties to
    even, 53 bits, least exponent -1074), so a literal such as [0.05] is
    the double nearest to 5/100 and not 1/20.  The engine's numbers are
    decimals of magnitude below 8e28 converted to floats; infinities and
    NaN, which sums and products of such numbers do not reach, are not
    embedded.  The volatility estimator takes logarithms and a square
    root, so its window holds reals [R] ([ln] and [sqrt] of the Standard
    Library); a close price enters it through [Q2R].

    Effects.  [Execute] talks to the algorithm object by method calls
    ([Debug], [SetHoldings], [Liquidate]) and can be interrupted by a
    Python exception.  Both are kept: a computation is a pair of the calls
    it made, in order, and of its result or of the exception it raised. *)

From Stdlib Require Import QArith Qabs Qreals Reals Lra Lia List String Bool.
From stdpp Require Import base option gmap strings sorting.
Import ListNotations.

(* ------------------------------------------------------------------ *)
(** ** Python runtime: exceptions, call traces, float comparisons       *)
(* ------------------------------------------------------------------ *)

Module Py.

Inductive exn : Set :=
| KeyError
| TypeError
| ZeroDivisionError.

Inductive result (A : Type) : Type :=
| Ok (a : A)
| Raise (e : exn).
Arguments Ok {A} a.
Arguments Raise {A} e.

Section Traced.
(** [E] is the type of the calls a computation makes on its
    environment. *)
Context {E : Type}.

Definition M (A : Type) : Type := (list E * result A)%type.

Definition ret {A} (a : A) : M A := ([], Ok a).

Definition bind {A B} (m : M A) (k : A -> M B) : M B :=
  match m with
  | (t, Ok a) => let '(t', r) := k a in (t ++ t', r)
  | (t, Raise e) => (t, Raise e)
  end.

Definition call (e : E) : M unit := ([e], Ok tt).
Definition lift {A} (r : result A) : M A := ([], r).

Definition calls {A} (m : M A) : list E := fst m.
End Traced.
Arguments M E A : clear implicits.

#[global] Instance M_ret {E} : MRet (M E) := @ret E.
#[global] Instance M_bind {E} : MBind (M E) := fun A B k m => bind m k.

#[global] Instance result_ret : MRet result := @Ok.
#[global] Instance result_bind : MBind result := fun A B k r =>
  match r with
  | Ok a => k a
  | Raise e => Raise e
  end.

(** An operand of an ordering comparison with a float: [None] there is a
    [TypeError]. *)
Definition as_float (x : option Q) : result Q :=
  match x with
  | Some v => Ok v
  | None => Raise TypeError
  end.

(** *** binary64 *)

(** The integer nearest to [n / d], for [0 <= n] and [0 < d]; a tie goes
    to the even one. *)
Definition nearest_even (n d : Z) : Z :=
  let q := (n / d)%Z in
  match (2 * (n mod d) ?= d)%Z with
  | Lt => q
  | Gt => (q + 1)%Z
  | Eq => if Z.even q then q else (q + 1)%Z
  end.

(** [n / d] divided by [2 ^ e], as a fraction. *)
Definition scaled (n d e : Z) : Z * Z :=
  if (0 <=? e)%Z then (n, (d * 2 ^ e)%Z) else ((n * 2 ^ (- e))%Z, d).

(** The exponent of the last bit of the double nearest to [n / d], for
    positive [n] and [d]: the [e] with [2^52 <= n / d / 2^e < 2^53], and
    -1074 when that is less (subnormal numbers). *)
Definition exponent (n d : Z) : Z :=
  let e := (Z.log2 n - Z.log2 d - 53)%Z in
  let '(n', d') := scaled n d e in
  Z.max (if (n' / d' <? 2 ^ 53)%Z then e else (e + 1)%Z) (-1074).

Definition round_positive (n d : Z) : Q :=
  let e := exponent n d in
  let '(n', d') := scaled n d e in
  let m := nearest_even n' d' in
  Qred (if (0 <=? e)%Z
        then inject_Z (m * 2 ^ e)
        else Qmake m (Z.to_pos (2 ^ (- e)))).

(** The double nearest to a rational. *)
Definition round (q : Q) : Q :=
  match Qnum q with
  | Z0 => 0%Q
  | Zpos n => round_positive (Zpos n) (Zpos (Qden q))
  | Zneg n => Qopp (round_positive (Zpos n) (Zpos (Qden q)))
  end.

(** A float literal, written as a decimal. *)
Definition float (literal : Q) : Q := round literal.

(** [x + y], [x - y], [x * y] and, for [y] other than zero, [x / y] on
    floats. *)
Definition add (x y : Q) : Q := round (x + y).
Definition sub (x y : Q) : Q := round (x - y).
Definition mul (x y : Q) : Q := round (x * y).
Definition div (x y : Q) : Q := round (x / y).
Arguments round : simpl never.
Arguments float : simpl never.
Arguments add : simpl never.
Arguments sub : simpl never.
Arguments mul : simpl never.
Arguments div : simpl never.

(** Comparison operators on floats. *)
Definition lt (x y : Q) : bool :=
  match (x ?= y)%Q with Lt => true | _ => false end.
Definition gt (x y : Q) : bool := lt y x.
Definition le (x y : Q) : bool := Qle_bool x y.
Definition ge (x y : Q) : bool := Qle_bool y x.
Definition eq (x y : Q) : bool := Qeq_bool x y.
Arguments lt : simpl never.
Arguments gt : simpl never.
Arguments le : simpl never.
Arguments ge : simpl never.
Arguments eq : simpl never.

(** [sum(xs)] on floats: the additions are made from left to right,
    starting from [0], each one rounded (CPython before 3.12). *)
Definition sum (xs : list Q) : Q := fold_left add xs 0%Q.

(** [x / y] on floats. *)
Definition truediv (x y : Q) : result Q :=
  if eq y 0 then Raise ZeroDivisionError else Ok (div x y).

(** [d[k]] on a dict. *)
Definition getitem {D V} `{!Lookup string V D} (d : D) (k : string) : result V :=
  match d !! k with
  | Some v => Ok v
  | None => Raise KeyError
  end.

End Py.

Notation "x <? y" := (Py.lt x y) : Q_scope.
Notation "x >? y" := (Py.gt x y) : Q_scope.
Notation "x <=? y" := (Py.le x y) : Q_scope.
Notation "x >=? y" := (Py.ge x y) : Q_scope.
Notation "x =? y" := (Py.eq x y) : Q_scope.

(* ------------------------------------------------------------------ *)
(** ** QuantConnect's LEAN engine, as far as the two modules use it    *)
(* ------------------------------------------------------------------ *)

Module Lean.

(** A bar of a data slice; [Update] reads its end time and its close. *)
Record Bar : Set := { EndTime : Z; Close : Q }.

(** The [data] argument of [Update]: a symbol may be absent, or present
    with the value [None]. *)
Abbreviation Slice := (gmap string (option Bar)).

(** What the source reads of the library's indicator objects.  The
    library is not part of the repository: its indicators are taken as
    an interface. *)
Class Indicator (I : Type) : Type := {
  ind_Update : I -> Z -> Q -> I;
  IsReady : I -> bool;
  Current : I -> Q
}.

Class BollingerBands (I : Type) : Type := {
  bb_Indicator :: Indicator I;
  LowerBand : I -> Q;
  MiddleBand : I -> Q;
  UpperBand : I -> Q
}.

(** [RollingWindow[T](size)]: the most recent item is at index 0; the
    oldest falls out when an item is added at capacity; the window is
    ready once [size] items have been added. *)
Record RollingWindow (T : Type) : Type := {
  Size : nat;
  items : list T;
  Samples : nat
}.
Arguments Size {T} _.
Arguments items {T} _.
Arguments Samples {T} _.

Definition rw_new {T} (size : nat) : RollingWindow T :=
  {| Size := size; items := []; Samples := 0 |}.

Definition rw_Add {T} (w : RollingWindow T) (x : T) : RollingWindow T :=
  {| Size := Size w;
     items := firstn (Size w) (x :: items w);
     Samples := S (Samples w) |}.

Definition rw_Count {T} (w : RollingWindow T) : nat := length (items w).

Definition rw_IsReady {T} (w : RollingWindow T) : bool :=
  (Size w <=? Samples w)%nat.

(** The algorithm object, as far as the two modules read it. *)
Record Security : Set := { Price : option Q }.

Record SecurityHolding : Set := {
  Quantity : Q;
  AveragePrice : Q;
  HoldingsValue : Q
}.

(** [Portfolio]: the holdings by symbol, in the order in which the
    engine enumerates them. *)
Record SecurityPortfolioManager : Set := {
  holdings : list (string * SecurityHolding)
}.

Fixpoint find_holding (entries : list (string * SecurityHolding)) (k : string)
    : option SecurityHolding :=
  match entries with
  | [] => None
  | (k', holding) :: rest =>
      if String.eqb k' k then Some holding else find_holding rest k
  end.

#[global] Instance portfolio_lookup
    : Lookup string SecurityHolding SecurityPortfolioManager :=
  fun k p => find_holding (holdings p) k.

Record QCAlgorithm : Type := {
  Securities : gmap string Security;
  Portfolio : SecurityPortfolioManager;
  TotalPortfolioValue : Q
}.

(** [Portfolio.Values] *)
Definition Values (p : SecurityPortfolioManager) : list SecurityHolding :=
  map snd (holdings p).

(** The text of a [Debug] message: which f-string, and its arguments. *)
Inductive Message : Set :=
| InvalidPrice (s : string) (price : option Q)
| ExposureExceeded (s : string) (exposure : Q)
| StopLossLong (s : string) (price : Q)
| StopLossShort (s : string) (price : Q).

(** The calls the strategy makes on the algorithm object. *)
Inductive Call : Set :=
| Debug (m : Message)
| SetHoldings (s : string) (percentage : Q)
| Liquidate (s : string).

End Lean.

(** [numpy], on reals. *)
Module Np.

(** [np.log]; the source only calls it on a quotient whose divisor is
    positive. *)
Definition log (x : R) : R := ln x.

Definition mean (xs : list R) : R :=
  (fold_right Rplus 0 xs / INR (length xs))%R.

(** [np.std]: the population standard deviation. *)
Definition std (xs : list R) : R :=
  sqrt (mean (map (fun x => Rsqr (x - mean xs)) xs)).

End Np.

(* ------------------------------------------------------------------ *)
(** ** Indicators.py                                                    *)
(* ------------------------------------------------------------------ *)

(** Every class keeps a reference to the one algorithm object; here the
    methods that read it ([IsUptrend], [IsDowntrend], [Execute]) take its
    current state as an argument. *)

Module CustomBollingerBands.
Import Lean.
Section Class.
Context {I : Type} `{!BollingerBands I}.

Record t : Type := { symbol : string; bbands : I }.

Definition Update (self : t) (data : Slice) : t :=
  match data !! symbol self with
  | Some (Some bar) =>
      {| symbol := symbol self;
         bbands := ind_Update (bbands self) (EndTime bar) (Close bar) |}
  | Some None | None => self
  end.

Definition HasSignal (self : t) : bool := IsReady (bbands self).

End Class.
Arguments t I : clear implicits.
End CustomBollingerBands.

Module RSIIndicator.
Import Lean.
Section Class.
Context {I : Type} `{!Indicator I}.

Record t : Type := { symbol : string; rsi : I }.

Definition Update (self : t) (data : Slice) : t :=
  match data !! symbol self with
  | Some (Some bar) =>
      {| symbol := symbol self;
         rsi := ind_Update (rsi self) (EndTime bar) (Close bar) |}
  | Some None | None => self
  end.

Definition HasSignal (self : t) : bool := IsReady (rsi self).

End Class.
Arguments t I : clear implicits.
End RSIIndicator.

Module HistoricalVolatility.
Import Lean.

Record t : Type := { symbol : string; returns : RollingWindow R }.

(** [__init__(algorithm, symbol, period=20)] *)
Definition init (symbol : string) (period : nat) : t :=
  {| symbol := symbol; returns := rw_new period |}.

(** [returns.Count > 0] holds exactly when the window has a head, and the
    head is [returns[0]]. *)
Definition Update (self : t) (data : Slice) : t :=
  match data !! symbol self with
  | Some (Some bar) =>
      let price := Q2R (Close bar) in
      match items (returns self) with
      | returns_0 :: _ =>
          let previous_price :=
            if Req_dec_T returns_0 0 then price else returns_0 in
          let log_return :=
            if Rlt_dec 0 previous_price
            then Np.log (price / previous_price)
            else 0%R in
          {| symbol := symbol self;
             returns := rw_Add (returns self) log_return |}
      | [] =>
          {| symbol := symbol self;
             returns := rw_Add (returns self) 0%R |}
      end
  | Some None | None => self
  end.

Definition GetVolatility (self : t) : option R :=
  if rw_IsReady (returns self)
  then Some (Np.std (items (returns self)))
  else None.

End HistoricalVolatility.

Module TrendFilter.
Import Lean.
Section Class.
Context {I : Type} `{!Indicator I}.

Record t : Type := { symbol : string; sma : I }.

Definition Update (self : t) (data : Slice) : t :=
  match data !! symbol self with
  | Some (Some bar) =>
      {| symbol := symbol self;
         sma := ind_Update (sma self) (EndTime bar) (Close bar) |}
  | Some None | None => self
  end.

Definition IsUptrend (self : t) (algorithm : QCAlgorithm) : Py.result bool :=
  if IsReady (sma self) then
    security ← Py.getitem (Securities algorithm) (symbol self);
    price ← Py.as_float (Price security);
    Py.Ok (price >? Current (sma self))%Q
  else Py.Ok false.

Definition IsDowntrend (self : t) (algorithm : QCAlgorithm) : Py.result bool :=
  if IsReady (sma self) then
    security ← Py.getitem (Securities algorithm) (symbol self);
    price ← Py.as_float (Price security);
    Py.Ok (price <? Current (sma self))%Q
  else Py.Ok false.

End Class.
Arguments t I : clear implicits.
End TrendFilter.

(* ------------------------------------------------------------------ *)
(** ** AssetStrategy.py                                                 *)
(* ------------------------------------------------------------------ *)

Module AssetArbitrageStrategy.
Import Lean.

Record t : Set := {
  symbol : string;
  long_trade_size : Q;
  short_trade_size : Q;
  long_stop_loss : Q;
  short_stop_loss : Q;
  max_portfolio_exposure : Q
}.

(** [__init__(algorithm, symbol)] *)
Definition init (symbol : string) : t :=
  {| symbol := symbol;
     long_trade_size := Py.float 0.05;
     short_trade_size := Py.float 0.03;
     long_stop_loss := Py.float 0.05;
     short_stop_loss := Py.float 0.03;
     max_portfolio_exposure := Py.float 0.80 |}.

(** An [if] statement without [else]. *)
Definition when (c : bool) (body : Py.M Call unit) : Py.M Call unit :=
  if c then body else mret tt.

Section Class.
Context {B S T : Type} `{!BollingerBands B, !Indicator S, !Indicator T}.

(** The [indicators] dict, with the three keys [Execute] reads. *)
Record Indicators : Type := {
  contrarian_bands : CustomBollingerBands.t B;
  rsi : RSIIndicator.t S;
  trend : TrendFilter.t T
}.

(** [sum([holding.HoldingsValue for holding in Portfolio.Values])
     / Portfolio.TotalPortfolioValue] *)
Definition portfolio_exposure (algorithm : QCAlgorithm) : Py.result Q :=
  Py.truediv
    (Py.sum (map HoldingsValue (Values (Portfolio algorithm))))
    (TotalPortfolioValue algorithm).

Definition Execute (self : t) (indicators : Indicators)
    (algorithm : QCAlgorithm) : Py.M Call unit :=
  let contrarian_bands := contrarian_bands indicators in
  let rsi := rsi indicators in
  let trend := trend indicators in
  if negb (CustomBollingerBands.HasSignal contrarian_bands)
     || negb (RSIIndicator.HasSignal rsi)
  then mret tt
  else
    security ← Py.lift (Py.getitem (Securities algorithm) (symbol self));
    let price := Price security in
    holding ← Py.lift (Py.getitem (Portfolio algorithm) (symbol self));
    let holdings := Quantity holding in
    let average_price := AveragePrice holding in
    match price with
    | None => Py.call (Debug (InvalidPrice (symbol self) None))
    | Some price =>
      if (price <=? 0)%Q
      then Py.call (Debug (InvalidPrice (symbol self) (Some price)))
      else
        (* Portfolio Exposure Check *)
        portfolio_exposure ← Py.lift (portfolio_exposure algorithm);
        if (portfolio_exposure >? max_portfolio_exposure self)%Q
        then
          Py.call (Debug (ExposureExceeded (symbol self) portfolio_exposure))
        else
          let bbands := CustomBollingerBands.bbands contrarian_bands in
          let rsi_value := Current (RSIIndicator.rsi rsi) in
          (* Long Entry *)
          long_entry ←
            (if (holdings =? 0)%Q && (price <? LowerBand bbands)%Q
                && (rsi_value <? 30)%Q
             then Py.lift (TrendFilter.IsUptrend trend algorithm)
             else mret false : Py.M Call bool);
          (if long_entry : bool
           then Py.call (SetHoldings (symbol self) (long_trade_size self))
           else
             (* Short Entry *)
             short_entry ←
               (if (holdings =? 0)%Q && (price >? UpperBand bbands)%Q
                   && (rsi_value >? 70)%Q
                then Py.lift (TrendFilter.IsDowntrend trend algorithm)
                else mret false : Py.M Call bool);
             when (short_entry : bool)
               (Py.call
                  (SetHoldings (symbol self) (- short_trade_size self)%Q)));;
          (* Stop-Loss for Long Positions *)
          when ((holdings >? 0)%Q
                && (price <? Py.mul average_price
                               (Py.sub 1 (long_stop_loss self)))%Q)
            (Py.call (Debug (StopLossLong (symbol self) price));;
             Py.call (Liquidate (symbol self)));;
          (* Stop-Loss for Short Positions *)
          when ((holdings <? 0)%Q
                && (price >? Py.mul average_price
                               (Py.add 1 (short_stop_loss self)))%Q)
            (Py.call (Debug (StopLossShort (symbol self) price));;
             Py.call (Liquidate (symbol self)));;
          (* Long Exit *)
          when ((holdings >? 0)%Q && (price >=? MiddleBand bbands)%Q)
            (Py.call (Liquidate (symbol self)));;
          (* Short Exit *)
          when ((holdings <? 0)%Q && (price <=? MiddleBand bbands)%Q)
            (Py.call (Liquidate (symbol self)))
    end.

End Class.
Arguments Indicators B S T : clear implicits.

(** The position-changing calls among the calls made. *)
Definition is_order (c : Call) : bool :=
  match c with
  | Debug _ => false
  | SetHoldings _ _ | Liquidate _ => true
  end.

Definition orders (cs : list Call) : list Call := List.filter is_order cs.

End AssetArbitrageStrategy.

(* ------------------------------------------------------------------ *)
(** ** Indicator objects with given readings                            *)
(* ------------------------------------------------------------------ *)

(** An implementation of the library interface that reports the readings
    it was built with and records every [Update] it receives.  It is used
    to run the code on concrete snapshots. *)
Module Probe.
Import Lean.

Record t : Set := {
  ready : bool;
  value : Q;
  lower : Q;
  middle : Q;
  upper : Q;
  updates : list (Z * Q)
}.

Definition record_update (p : t) (time : Z) (close : Q) : t :=
  {| ready := ready p; value := value p;
     lower := lower p; middle := middle p; upper := upper p;
     updates := (time, close) :: updates p |}.

#[global] Instance probe_Indicator : Indicator t :=
  {| ind_Update := record_update; IsReady := ready; Current := value |}.

#[global] Instance probe_BollingerBands : BollingerBands t :=
  {| bb_Indicator := probe_Indicator;
     LowerBand := lower; MiddleBand := middle; UpperBand := upper |}.

(** A ready indicator whose current value is [v]. *)
Definition reading (v : Q) : t :=
  {| ready := true; value := v; lower := v; middle := v; upper := v;
     updates := [] |}.

(** Ready bands with the given lower, middle and upper values. *)
Definition bands (lo mid up : Q) : t :=
  {| ready := true; value := mid; lower := lo; middle := mid; upper := up;
     updates := [] |}.

(** An indicator that is not ready yet. *)
Definition warming_up : t :=
  {| ready := false; value := 0; lower := 0; middle := 0; upper := 0;
     updates := [] |}.

End Probe.

(* ------------------------------------------------------------------ *)
(** ** Vocabulary of the statements                                     *)
(* ------------------------------------------------------------------ *)

Module Rules.
Import Lean AssetArbitrageStrategy.

(** [Execute] gets past its guards (lines 43 to 58): both indicators have
    a signal, the symbol has a security with a positive price [price] and
    a holding [holding], and the exposure ratio [exposure], the float
    that line 55 computes, does not exceed the maximum. *)
Definition passes_guards {B S T} `{!BollingerBands B, !Indicator S, !Indicator T}
    (self : AssetArbitrageStrategy.t) (indicators : Indicators B S T)
    (algorithm : QCAlgorithm)
    (price : Q) (holding : SecurityHolding) (exposure : Q) : Prop :=
  CustomBollingerBands.HasSignal (contrarian_bands indicators) = true /\
  RSIIndicator.HasSignal (rsi indicators) = true /\
  Securities algorithm !! symbol self = Some {| Price := Some price |} /\
  (0 < price)%Q /\
  Portfolio algorithm !! symbol self = Some holding /\
  portfolio_exposure algorithm = Py.Ok exposure /\
  (exposure <= max_portfolio_exposure self)%Q.

(** The stop levels [average_price * (1 - long_stop_loss)] and
    [average_price * (1 + short_stop_loss)], as floats. *)
Definition long_stop_level (self : AssetArbitrageStrategy.t)
    (holding : SecurityHolding) : Q :=
  Py.mul (AveragePrice holding) (Py.sub 1 (long_stop_loss self)).

Definition short_stop_level (self : AssetArbitrageStrategy.t)
    (holding : SecurityHolding) : Q :=
  Py.mul (AveragePrice holding) (Py.add 1 (short_stop_loss self)).

(** The conditions of the four risk rules (lines 69, 74, 79 and 83). *)
Definition long_stop_loss_hit (self : AssetArbitrageStrategy.t)
    (holding : SecurityHolding) (price : Q) : Prop :=
  (Quantity holding > 0)%Q /\
  (price < long_stop_level self holding)%Q.

Definition short_stop_loss_hit (self : AssetArbitrageStrategy.t)
    (holding : SecurityHolding) (price : Q) : Prop :=
  (Quantity holding < 0)%Q /\
  (price > short_stop_level self holding)%Q.

Definition long_exit_hit (holding : SecurityHolding) (price middle : Q) : Prop :=
  (Quantity holding > 0)%Q /\ (price >= middle)%Q.

Definition short_exit_hit (holding : SecurityHolding) (price middle : Q) : Prop :=
  (Quantity holding < 0)%Q /\ (price <= middle)%Q.

(** Entry calls among the calls made. *)
Definition is_entry (c : Call) : bool :=
  match c with
  | SetHoldings _ _ => true
  | Debug _ | Liquidate _ => false
  end.

(** A data slice has no bar for a symbol: the symbol is not a key, or its
    value is [None]. *)
Definition no_bar (data : Slice) (s : string) : Prop :=
  data !! s = None \/ data !! s = Some None.

(** A slice with one bar. *)
Definition one_bar (s : string) (time : Z) (close : Q) : Slice :=
  {[ s := Some {| EndTime := time; Close := close |} ]}.

End Rules.

(** The specification's wording of two quantities, to compare the code
    with. *)
Module Spec.
Import Lean.

(** "aggregate exposure ratio = sum of |holding value| / total value",
    as a quantity. *)
Definition exposure_ratio (algorithm : QCAlgorithm) : Q :=
  (fold_right (fun h acc => Qabs (HoldingsValue h) + acc) 0
     (Values (Portfolio algorithm))
   / TotalPortfolioValue algorithm)%Q.

(** The same ratio computed as the code computes its own: a float sum,
    from left to right, of the absolute holding values, and a float
    division. *)
Definition absolute_exposure (algorithm : QCAlgorithm) : Py.result Q :=
  Py.truediv
    (Py.sum (map (fun h => Qabs (HoldingsValue h))
               (Values (Portfolio algorithm))))
    (TotalPortfolioValue algorithm).

(** "append log-return of consecutive closes (first observation
    contributes a defined zero return)": the returns of a chronological
    series of closes, most recent first, as the window holds them. *)
Fixpoint log_returns_from (previous : R) (closes : list R) (acc : list R) : list R :=
  match closes with
  | [] => acc
  | close :: rest => log_returns_from close rest (ln (close / previous) :: acc)
  end.

Definition log_returns (closes : list R) : list R :=
  match closes with
  | [] => []
  | first :: rest => log_returns_from first rest [0%R]
  end.

End Spec.

(* ------------------------------------------------------------------ *)
(** ** Concrete snapshots                                               *)
(* ------------------------------------------------------------------ *)

Module Scenario.
Import Lean AssetArbitrageStrategy.

(** An account that holds the strategy's symbol, SPY, and one other
    position, QQQ, of market value [other_value]. *)
Definition algorithm (price quantity average_price other_value total : Q)
    : QCAlgorithm :=
  {| Securities := list_to_map [("SPY"%string, {| Price := Some price |})];
     Portfolio :=
       {| holdings :=
            [("SPY"%string,
              {| Quantity := quantity; AveragePrice := average_price;
                 HoldingsValue := quantity * price |});
             ("QQQ"%string,
              {| Quantity := 1; AveragePrice := other_value;
                 HoldingsValue := other_value |})] |};
     TotalPortfolioValue := total |}.

(** An account in which SPY is flat and three other positions have the
    market values [values], in this order. *)
Definition account (price : Q) (values : Q * Q * Q) (total : Q) : QCAlgorithm :=
  let '(a, b, c) := values in
  {| Securities := list_to_map [("SPY"%string, {| Price := Some price |})];
     Portfolio :=
       {| holdings :=
            [("SPY"%string,
              {| Quantity := 0; AveragePrice := 0; HoldingsValue := 0 |});
             ("AAA"%string,
              {| Quantity := 1; AveragePrice := a; HoldingsValue := a |});
             ("BBB"%string,
              {| Quantity := 1; AveragePrice := b; HoldingsValue := b |});
             ("CCC"%string,
              {| Quantity := 1; AveragePrice := c; HoldingsValue := c |})] |};
     TotalPortfolioValue := total |}.

(** Ready indicators for SPY with the given band values, oscillator value
    and moving average. *)
Definition indicators (lower middle upper oscillator average : Q)
    : Indicators Probe.t Probe.t Probe.t :=
  {| contrarian_bands :=
       {| CustomBollingerBands.symbol := "SPY";
          CustomBollingerBands.bbands := Probe.bands lower middle upper |};
     rsi :=
       {| RSIIndicator.symbol := "SPY";
          RSIIndicator.rsi := Probe.reading oscillator |};
     trend :=
       {| TrendFilter.symbol := "SPY";
          TrendFilter.sma := Probe.reading average |} |}.

(** The same, with bands that are not ready. *)
Definition indicators_warming_up (oscillator average : Q)
    : Indicators Probe.t Probe.t Probe.t :=
  {| contrarian_bands :=
       {| CustomBollingerBands.symbol := "SPY";
          CustomBollingerBands.bbands := Probe.warming_up |};
     rsi :=
       {| RSIIndicator.symbol := "SPY";
          RSIIndicator.rsi := Probe.reading oscillator |};
     trend :=
       {| TrendFilter.symbol := "SPY";
          TrendFilter.sma := Probe.reading average |} |}.

(** A slice with a bar for SPY, the value [None] for QQQ, and no entry for
    any other symbol. *)
Definition slice : Slice :=
  list_to_map
    [("SPY"%string, Some {| EndTime := 1; Close := 100 |});
     ("QQQ"%string, None)].

End Scenario.

(* ------------------------------------------------------------------ *)
(** ** main.py                                                          *)
(* ------------------------------------------------------------------ *)

(** A Python dict with string keys: its entries in insertion order, one
    entry per key. *)
Module Dict.

Definition t (V : Type) : Type := list (string * V).

Fixpoint get {V} (d : t V) (k : string) : option V :=
  match d with
  | [] => None
  | (k', v) :: d' => if String.eqb k' k then Some v else get d' k
  end.

(** [k in d] *)
Definition contains {V} (d : t V) (k : string) : bool :=
  match get d k with
  | Some _ => true
  | None => false
  end.

(** [d[k] = v]: a new key goes last, a known key keeps its place. *)
Fixpoint set {V} (d : t V) (k : string) (v : V) : t V :=
  match d with
  | [] => [(k, v)]
  | (k', v') :: d' =>
      if String.eqb k' k then (k', v) :: d' else (k', v') :: set d' k v
  end.

(** [del d[k]] *)
Definition del {V} (d : t V) (k : string) : t V :=
  List.filter (fun entry => negb (String.eqb (fst entry) k)) d.

Definition keys {V} (d : t V) : list string := map fst d.

End Dict.

(** What [main.py] uses of the engine besides the algorithm object. *)
Module Engine.
Import Lean.

(** [algorithm.BB(symbol, period, deviations, ...)],
    [algorithm.RSI(symbol, period, ...)] and
    [algorithm.SMA(symbol, period, ...)]: the library's constructors of
    indicator objects (the moving-average type and the resolution are
    constants in the source). *)
Class Factory (B S T : Type) : Type := {
  BB : string -> nat -> Q -> B;
  RSI : string -> nat -> S;
  SMA : string -> nat -> T
}.

(** The account after the engine has handled a call of the algorithm. *)
Class Broker : Type := {
  respond : QCAlgorithm -> Call -> QCAlgorithm
}.

End Engine.

(** An entry of the [coarse] list. *)
Module Coarse.

Record t : Set := { Symbol : string; Price : Q; DollarVolume : Q }.

End Coarse.

Module VolatilityArbitrage.
Import Lean Engine.

(** [changes]: the symbols of the added and of the removed securities. *)
Record SecurityChanges : Set := {
  AddedSecurities : list string;
  RemovedSecurities : list string
}.

(** What the engine calls on the algorithm after [Initialize]: a change
    of the universe, or a slice of data (with the warm-up flag and the
    account at that time). *)
Inductive Event : Type :=
| Changed (changes : SecurityChanges)
| Data (IsWarmingUp : bool) (algorithm : QCAlgorithm) (data : Slice).

(** The event is a change that adds the symbol. *)
Definition adds (s : string) (event : Event) : Prop :=
  match event with
  | Changed changes => In s (AddedSecurities changes)
  | Data _ _ _ => False
  end.

(** [x.Price > 20 and x.DollarVolume > 1e7] *)
Definition liquid (x : Coarse.t) : bool :=
  (Coarse.Price x >? 20)%Q && (Coarse.DollarVolume x >? 10000000)%Q.

(** [sorted(xs, key=..., reverse=True)].  The sort is stable, also with
    [reverse=True]: among equal keys the earlier element stays first.  An
    element is inserted before the first one whose key is not greater. *)
Fixpoint insert_descending {A} (key : A -> Q) (x : A) (sorted : list A) : list A :=
  match sorted with
  | [] => [x]
  | y :: rest =>
      if (key y <=? key x)%Q
      then x :: y :: rest
      else y :: insert_descending key x rest
  end.

Fixpoint sorted_descending {A} (key : A -> Q) (xs : list A) : list A :=
  match xs with
  | [] => []
  | x :: rest => insert_descending key x (sorted_descending key rest)
  end.

Section Class.
Context {B S T : Type} `{!BollingerBands B, !Indicator S, !Indicator T}.
Context `{!Factory B S T, !Broker}.

(** The ["indicators"] dict of a symbol, with its four keys. *)
Record IndicatorSet : Type := {
  contrarian_bands : CustomBollingerBands.t B;
  rsi : RSIIndicator.t S;
  hist_vol : HistoricalVolatility.t;
  trend : TrendFilter.t T
}.

(** A value of [symbol_data]. *)
Record SymbolData : Type := {
  indicators : IndicatorSet;
  strategy : AssetArbitrageStrategy.t
}.

(** The attributes the class adds to the algorithm object. *)
Record t : Type := {
  crypto_symbols : list string;
  symbol_data : Dict.t SymbolData
}.

(** [Initialize], as far as it sets attributes; its other calls configure
    the engine (dates, cash, subscriptions, warm-up). *)
Definition Initialize : t :=
  {| crypto_symbols := ["BTCUSD"; "ETHUSD"; "SOLUSD"]%string;
     symbol_data := [] |}.

Definition CoarseSelectionFunction (self : t) (coarse : list Coarse.t)
    : list string :=
  let filtered := List.filter liquid coarse in
  let sorted_by_volume := sorted_descending Coarse.DollarVolume filtered in
  let selected := map Coarse.Symbol (firstn 100 sorted_by_volume) in
  selected ++ crypto_symbols self.

(** The value [OnSecuritiesChanged] stores for a new symbol; the default
    periods are those of the constructors in [Indicators.py]. *)
Definition new_symbol_data (symbol : string) : SymbolData :=
  {| indicators :=
       {| contrarian_bands :=
            {| CustomBollingerBands.symbol := symbol;
               CustomBollingerBands.bbands := BB symbol 20 2 |};
          rsi :=
            {| RSIIndicator.symbol := symbol;
               RSIIndicator.rsi := RSI symbol 14 |};
          hist_vol := HistoricalVolatility.init symbol 20;
          trend :=
            {| TrendFilter.symbol := symbol;
               TrendFilter.sma := SMA symbol 50 |} |};
     strategy := AssetArbitrageStrategy.init symbol |}.

Definition add_security (data : Dict.t SymbolData) (symbol : string)
    : Dict.t SymbolData :=
  if negb (Dict.contains data symbol)
  then Dict.set data symbol (new_symbol_data symbol)
  else data.

Definition remove_security (data : Dict.t SymbolData) (symbol : string)
    : Dict.t SymbolData :=
  if Dict.contains data symbol then Dict.del data symbol else data.

Definition OnSecuritiesChanged (self : t) (changes : SecurityChanges) : t :=
  let added := fold_left add_security (AddedSecurities changes)
                 (symbol_data self) in
  let removed := fold_left remove_security (RemovedSecurities changes)
                   added in
  {| crypto_symbols := crypto_symbols self; symbol_data := removed |}.

(** The four [Update] calls of [OnData], in their order. *)
Definition update_indicators (indicators : IndicatorSet) (data : Slice)
    : IndicatorSet :=
  let contrarian_bands' :=
    CustomBollingerBands.Update (contrarian_bands indicators) data in
  let rsi' := RSIIndicator.Update (rsi indicators) data in
  let hist_vol' := HistoricalVolatility.Update (hist_vol indicators) data in
  let trend' := TrendFilter.Update (trend indicators) data in
  {| contrarian_bands := contrarian_bands'; rsi := rsi';
     hist_vol := hist_vol'; trend := trend' |}.

(** [Execute] receives the whole dict and reads three of its keys. *)
Definition execute_argument (indicators : IndicatorSet)
    : AssetArbitrageStrategy.Indicators B S T :=
  {| AssetArbitrageStrategy.contrarian_bands := contrarian_bands indicators;
     AssetArbitrageStrategy.rsi := rsi indicators;
     AssetArbitrageStrategy.trend := trend indicators |}.

(** The outcome of running the loop of [OnData]: the entries of
    [symbol_data] with their indicators as the loop left them, the
    account as the engine left it, the calls made, and the result. *)
Record Pass : Type := {
  entries : Dict.t SymbolData;
  account : QCAlgorithm;
  made : list Call;
  result : Py.result unit
}.

(** [for symbol, data_set in self.symbol_data.items(): ...].  The loop
    ends at the first exception; what was updated before stays updated.
    Every [Execute] reads the account as the engine left it after the
    calls of the evaluations before. *)
Fixpoint OnData_loop (items : Dict.t SymbolData) (data : Slice)
    (algorithm : QCAlgorithm) : Pass :=
  match items with
  | [] =>
      {| entries := []; account := algorithm; made := [];
         result := Py.Ok tt |}
  | (symbol, data_set) :: rest =>
      match data !! symbol with
      | Some _ =>
          let indicators := update_indicators (indicators data_set) data in
          let data_set' :=
            {| indicators := indicators; strategy := strategy data_set |} in
          let '(calls, outcome) :=
            AssetArbitrageStrategy.Execute (strategy data_set)
              (execute_argument indicators) algorithm in
          let algorithm' := fold_left respond calls algorithm in
          match outcome with
          | Py.Ok _ =>
              let later := OnData_loop rest data algorithm' in
              {| entries := (symbol, data_set') :: entries later;
                 account := account later;
                 made := calls ++ made later;
                 result := result later |}
          | Py.Raise e =>
              {| entries := (symbol, data_set') :: rest;
                 account := algorithm';
                 made := calls;
                 result := Py.Raise e |}
          end
      | None =>
          let later := OnData_loop rest data algorithm in
          {| entries := (symbol, data_set) :: entries later;
             account := account later;
             made := made later;
             result := result later |}
      end
  end.

(** [OnData(data)]; [IsWarmingUp] and the account are the engine's. *)
Definition OnData (self : t) (IsWarmingUp : bool) (algorithm : QCAlgorithm)
    (data : Slice) : t * Pass :=
  if IsWarmingUp
  then (self,
        {| entries := symbol_data self; account := algorithm; made := [];
           result := Py.Ok tt |})
  else
    let pass := OnData_loop (symbol_data self) data algorithm in
    ({| crypto_symbols := crypto_symbols self;
        symbol_data := entries pass |}, pass).

(** The algorithm object after the engine's call. *)
Definition handle (self : t) (event : Event) : t :=
  match event with
  | Changed changes => OnSecuritiesChanged self changes
  | Data IsWarmingUp algorithm data =>
      fst (OnData self IsWarmingUp algorithm data)
  end.

End Class.
Arguments IndicatorSet B S T : clear implicits.
Arguments SymbolData B S T : clear implicits.
Arguments t B S T : clear implicits.
Arguments Pass B S T : clear implicits.

(** The invariant of [symbol_data]: one entry per key, and the objects
    stored under a key were built for that key. *)
Definition keyed {B S T} (key : string) (data_set : SymbolData B S T) : Prop :=
  AssetArbitrageStrategy.symbol (strategy data_set) = key /\
  CustomBollingerBands.symbol (contrarian_bands (indicators data_set)) = key /\
  RSIIndicator.symbol (rsi (indicators data_set)) = key /\
  HistoricalVolatility.symbol (hist_vol (indicators data_set)) = key /\
  TrendFilter.symbol (trend (indicators data_set)) = key.

Definition well_keyed {B S T} (data : Dict.t (SymbolData B S T)) : Prop :=
  NoDup (Dict.keys data) /\
  Forall (fun entry => keyed (fst entry) (snd entry)) data.

(** The symbol a position-changing call is for. *)
Definition target (c : Call) : option string :=
  match c with
  | Debug _ => None
  | SetHoldings s _ | Liquidate s => Some s
  end.

(** The call is a position-changing call for the symbol [k]. *)
Definition is_order_for (k : string) (c : Call) : bool :=
  match target c with
  | Some s => String.eqb s k
  | None => false
  end.

End VolatilityArbitrage.

(** The engine for the concrete runs: new indicators are not ready, and
    the account does not move while a slice is processed. *)
Module PaperEngine.
Import Lean Engine.

#[global] Instance paper_Factory : Factory Probe.t Probe.t Probe.t :=
  {| BB := fun _ _ _ => Probe.warming_up;
     RSI := fun _ _ => Probe.warming_up;
     SMA := fun _ _ => Probe.warming_up |}.

#[global] Instance paper_Broker : Broker :=
  {| respond := fun algorithm _ => algorithm |}.

End PaperEngine.

(** Concrete inputs for [main.py]. *)
Module Session.
Import Lean Engine VolatilityArbitrage PaperEngine.

(** Five coarse entries: BBB is too cheap, DDD too thinly traded; AAA and
    EEE have the same dollar volume. *)
Definition coarse : list Coarse.t :=
  [ {| Coarse.Symbol := "AAA"; Coarse.Price := 50;
       Coarse.DollarVolume := 20000000 |};
    {| Coarse.Symbol := "BBB"; Coarse.Price := 10;
       Coarse.DollarVolume := 50000000 |};
    {| Coarse.Symbol := "CCC"; Coarse.Price := 30;
       Coarse.DollarVolume := 90000000 |};
    {| Coarse.Symbol := "DDD"; Coarse.Price := 25;
       Coarse.DollarVolume := 5000000 |};
    {| Coarse.Symbol := "EEE"; Coarse.Price := 40;
       Coarse.DollarVolume := 20000000 |} ].

(** The algorithm after [Initialize] and the addition of SPY and QQQ. *)
Definition started : VolatilityArbitrage.t Probe.t Probe.t Probe.t :=
  OnSecuritiesChanged Initialize
    {| AddedSecurities := ["SPY"; "QQQ"]%string; RemovedSecurities := [] |}.

(** SPY with ready indicators that call for a long entry (lower band 19,
    oscillator 25, moving average 17). *)
Definition spy_ready : SymbolData Probe.t Probe.t Probe.t :=
  {| indicators :=
       {| contrarian_bands :=
            {| CustomBollingerBands.symbol := "SPY";
               CustomBollingerBands.bbands := Probe.bands 19 20 21 |};
          rsi :=
            {| RSIIndicator.symbol := "SPY";
               RSIIndicator.rsi := Probe.reading 25 |};
          hist_vol := HistoricalVolatility.init "SPY" 20;
          trend :=
            {| TrendFilter.symbol := "SPY";
               TrendFilter.sma := Probe.reading 17 |} |};
     strategy := AssetArbitrageStrategy.init "SPY" |}.

(** The algorithm tracking SPY, as above, and QQQ with new indicators. *)
Definition live : VolatilityArbitrage.t Probe.t Probe.t Probe.t :=
  {| crypto_symbols := ["BTCUSD"; "ETHUSD"; "SOLUSD"]%string;
     symbol_data :=
       [ ("SPY"%string, spy_ready);
         ("QQQ"%string, new_symbol_data "QQQ") ] |}.

End Session.

(* ------------------------------------------------------------------ *)
(** ** Float comparisons                                                *)
(* ------------------------------------------------------------------ *)

Section Comparisons.
Local Open Scope Q_scope.

Lemma lt_true (x y : Q) : (x <? y) = true <-> x < y.
Proof.
  unfold Py.lt. rewrite Qlt_alt. destruct (x ?= y); intuition congruence.
Qed.

Lemma lt_false (x y : Q) : (x <? y) = false <-> y <= x.
Proof.
  rewrite <- not_true_iff_false, lt_true. split.
  - apply Qnot_lt_le.
  - apply Qle_not_lt.
Qed.

Lemma gt_true (x y : Q) : (x >? y) = true <-> y < x.
Proof. apply lt_true. Qed.

Lemma gt_false (x y : Q) : (x >? y) = false <-> x <= y.
Proof. apply lt_false. Qed.

Lemma le_true (x y : Q) : (x <=? y) = true <-> x <= y.
Proof. apply Qle_bool_iff. Qed.

Lemma le_false (x y : Q) : (x <=? y) = false <-> y < x.
Proof.
  rewrite <- not_true_iff_false, le_true. split.
  - apply Qnot_le_lt.
  - apply Qlt_not_le.
Qed.

Lemma ge_true (x y : Q) : (x >=? y) = true <-> y <= x.
Proof. apply le_true. Qed.

Lemma eq_true (x y : Q) : (x =? y) = true <-> x == y.
Proof. apply Qeq_bool_iff. Qed.

Lemma eq_false (x y : Q) : (x =? y) = false <-> ~ x == y.
Proof. rewrite <- not_true_iff_false, eq_true. reflexivity. Qed.

(** A quantity has one sign. *)
Lemma flat_not_long (q : Q) : q == 0 -> (q >? 0) = false.
Proof. intros E. apply gt_false. rewrite E. apply Qle_refl. Qed.

Lemma flat_not_short (q : Q) : q == 0 -> (q <? 0) = false.
Proof. intros E. apply lt_false. rewrite E. apply Qle_refl. Qed.

Lemma long_not_flat (q : Q) : 0 < q -> (q =? 0) = false.
Proof.
  intros L. apply eq_false. intros E. rewrite E in L.
  exact (Qlt_irrefl _ L).
Qed.

Lemma long_not_short (q : Q) : 0 < q -> (q <? 0) = false.
Proof. intros L. apply lt_false. apply Qlt_le_weak, L. Qed.

Lemma short_not_flat (q : Q) : q < 0 -> (q =? 0) = false.
Proof.
  intros L. apply eq_false. intros E. rewrite E in L.
  exact (Qlt_irrefl _ L).
Qed.

Lemma short_not_long (q : Q) : q < 0 -> (q >? 0) = false.
Proof. intros L. apply gt_false. apply Qlt_le_weak, L. Qed.

Lemma sign_cases (q : Q) : q == 0 \/ 0 < q \/ q < 0.
Proof.
  destruct (Q_dec q 0) as [[L | G] | E]; auto.
Qed.

End Comparisons.

(* ------------------------------------------------------------------ *)
(** ** Execute: the guards                                              *)
(* ------------------------------------------------------------------ *)

Section Execute.
Import Lean AssetArbitrageStrategy Rules.
Context {B S T : Type} `{!BollingerBands B, !Indicator S, !Indicator T}.
Implicit Types (self : AssetArbitrageStrategy.t)
  (indicators : Indicators B S T) (algorithm : QCAlgorithm).

Lemma Execute_not_ready self indicators algorithm :
  CustomBollingerBands.HasSignal (contrarian_bands indicators) = false \/
  RSIIndicator.HasSignal (rsi indicators) = false ->
  Execute self indicators algorithm = ([], Py.Ok tt).
Proof.
  intros [E | E]; unfold Execute; rewrite E; simpl.
  - reflexivity.
  - rewrite orb_true_r. reflexivity.
Qed.

Ltac pass_guards G :=
  let Hb := fresh "Hb" in let Hr := fresh "Hr" in
  let Hs := fresh "Hs" in let Hp := fresh "Hp" in
  let Hh := fresh "Hh" in let He := fresh "He" in
  let Hm := fresh "Hm" in
  destruct G as (Hb & Hr & Hs & Hp & Hh & He & Hm);
  unfold Execute; rewrite Hb, Hr; simpl;
  unfold Py.getitem; rewrite Hs, Hh; cbn;
  rewrite (proj2 (le_false _ _) Hp), He; cbn;
  rewrite (proj2 (gt_false _ _) Hm).

(** Whatever the input, [Execute] either gets past its guards or makes no
    position-changing call. *)
Lemma Execute_guards self indicators algorithm :
  orders (Py.calls (Execute self indicators algorithm)) = [] \/
  exists price holding exposure,
    passes_guards self indicators algorithm price holding exposure.
Proof.
  destruct (CustomBollingerBands.HasSignal (contrarian_bands indicators)) eqn:Hb;
    [ | left; rewrite Execute_not_ready by auto; reflexivity ].
  destruct (RSIIndicator.HasSignal (rsi indicators)) eqn:Hr;
    [ | left; rewrite Execute_not_ready by auto; reflexivity ].
  unfold Execute. rewrite Hb, Hr. simpl. unfold Py.getitem.
  destruct (Securities algorithm !! symbol self) as [[[price | ]] | ] eqn:Hs;
    cbn; try (left; reflexivity).
  - destruct (Portfolio algorithm !! symbol self) as [holding | ] eqn:Hh;
      cbn; [ | left; reflexivity ].
    destruct (price <=? 0)%Q eqn:Hp; [ left; reflexivity | ].
    destruct (portfolio_exposure algorithm) as [exposure | e] eqn:He;
      cbn; [ | left; reflexivity ].
    destruct (exposure >? max_portfolio_exposure self)%Q eqn:Hm;
      [ left; reflexivity | ].
    right. exists price, holding, exposure.
    apply le_false in Hp. apply gt_false in Hm.
    repeat split; assumption.
  - destruct (Portfolio algorithm !! symbol self); left; reflexivity.
Qed.

(** ** Execute: the rules, by the sign of the position *)

Lemma Execute_long self indicators algorithm price holding exposure :
  passes_guards self indicators algorithm price holding exposure ->
  (0 < Quantity holding)%Q ->
  Execute self indicators algorithm =
    ((if (price <? long_stop_level self holding)%Q
      then [Debug (StopLossLong (symbol self) price); Liquidate (symbol self)]
      else [])
     ++
     (if (price >=? MiddleBand (CustomBollingerBands.bbands
                                  (contrarian_bands indicators)))%Q
      then [Liquidate (symbol self)]
      else []),
     Py.Ok tt).
Proof.
  intros G L. pass_guards G.
  rewrite (long_not_flat _ L), (long_not_short _ L), (proj2 (gt_true _ _) L).
  cbn. unfold long_stop_level.
  destruct (price <? _)%Q; destruct (price >=? _)%Q; reflexivity.
Qed.

Lemma Execute_short self indicators algorithm price holding exposure :
  passes_guards self indicators algorithm price holding exposure ->
  (Quantity holding < 0)%Q ->
  Execute self indicators algorithm =
    ((if (price >? short_stop_level self holding)%Q
      then [Debug (StopLossShort (symbol self) price); Liquidate (symbol self)]
      else [])
     ++
     (if (price <=? MiddleBand (CustomBollingerBands.bbands
                                  (contrarian_bands indicators)))%Q
      then [Liquidate (symbol self)]
      else []),
     Py.Ok tt).
Proof.
  intros G L. pass_guards G.
  rewrite (short_not_flat _ L), (short_not_long _ L), (proj2 (lt_true _ _) L).
  cbn. unfold short_stop_level.
  destruct (price >? _)%Q; destruct (price <=? _)%Q; reflexivity.
Qed.

Lemma Execute_flat self indicators algorithm price holding exposure :
  passes_guards self indicators algorithm price holding exposure ->
  (Quantity holding == 0)%Q ->
  (exists r, Execute self indicators algorithm = ([], r)) \/
  Execute self indicators algorithm =
    ([SetHoldings (symbol self) (long_trade_size self)], Py.Ok tt) \/
  Execute self indicators algorithm =
    ([SetHoldings (symbol self) (- short_trade_size self)%Q], Py.Ok tt).
Proof.
  intros G F. pass_guards G.
  rewrite (flat_not_long _ F), (flat_not_short _ F), (proj2 (eq_true _ _) F).
  cbn.
  destruct (price <? _)%Q; cbn;
    [ destruct (Current _ <? 30)%Q; cbn;
      [ destruct (TrendFilter.IsUptrend _ _) as [[ | ] | e]; cbn;
        [ right; left; reflexivity | | left; eexists; reflexivity ] | ] | ].
  all: destruct (price >? _)%Q; cbn;
    [ destruct (Current _ >? 70)%Q; cbn;
      [ destruct (TrendFilter.IsDowntrend _ _) as [[ | ] | e]; cbn | ] | ].
  all: first [ right; right; reflexivity | left; eexists; reflexivity ].
Qed.

(** The position-changing calls of an evaluation, case by case. *)
Lemma Execute_order_cases self indicators algorithm :
  let os := orders (Py.calls (Execute self indicators algorithm)) in
  os = [] \/
  os = [SetHoldings (symbol self) (long_trade_size self)] \/
  os = [SetHoldings (symbol self) (- short_trade_size self)%Q] \/
  os = [Liquidate (symbol self)] \/
  (os = [Liquidate (symbol self); Liquidate (symbol self)] /\
   exists price holding exposure,
     passes_guards self indicators algorithm price holding exposure /\
     (long_stop_loss_hit self holding price /\
      long_exit_hit holding price
        (MiddleBand (CustomBollingerBands.bbands
                       (contrarian_bands indicators))) \/
      short_stop_loss_hit self holding price /\
      short_exit_hit holding price
        (MiddleBand (CustomBollingerBands.bbands
                       (contrarian_bands indicators))))).
Proof.
  cbv zeta.
  destruct (Execute_guards self indicators algorithm)
    as [E | (price & holding & exposure & G)]; [ left; exact E | ].
  destruct (sign_cases (Quantity holding)) as [F | [L | L]].
  - destruct (Execute_flat _ _ _ _ _ _ G F) as [(r & E) | [E | E]];
      rewrite E; simpl; auto.
  - rewrite (Execute_long _ _ _ _ _ _ G L).
    destruct (price <? _)%Q eqn:Hs; destruct (price >=? _)%Q eqn:He; simpl;
      auto 6.
    do 4 right. split; [ reflexivity | ].
    exists price, holding, exposure. split; [ exact G | left ].
    apply lt_true in Hs. apply ge_true in He.
    repeat split; assumption.
  - rewrite (Execute_short _ _ _ _ _ _ G L).
    destruct (price >? _)%Q eqn:Hs; destruct (price <=? _)%Q eqn:He; simpl;
      auto 6.
    do 4 right. split; [ reflexivity | ].
    exists price, holding, exposure. split; [ exact G | right ].
    apply gt_true in Hs. apply le_true in He.
    repeat split; assumption.
Qed.

(** ** Execute: the claims *)

(** C5.  When the band indicator or the oscillator has no signal, or the
    price of the symbol is undefined or not positive, the evaluation is
    skipped: [Execute] makes no position-changing call (no entry, no
    stop-loss, no exit). *)
Theorem Execute_skips_without_signal_or_price self indicators algorithm :
  CustomBollingerBands.HasSignal (contrarian_bands indicators) = false \/
  RSIIndicator.HasSignal (rsi indicators) = false \/
  (exists security,
     Securities algorithm !! symbol self = Some security /\
     (Price security = None \/
      exists price, Price security = Some price /\ (price <= 0)%Q)) ->
  orders (Py.calls (Execute self indicators algorithm)) = [].
Proof.
  intros [Hb | [Hr | (security & Hs & Hp)]].
  - rewrite Execute_not_ready by auto. reflexivity.
  - rewrite Execute_not_ready by auto. reflexivity.
  - destruct (Execute_guards self indicators algorithm)
      as [E | (price & holding & exposure & G)]; [ exact E | exfalso ].
    destruct G as (_ & _ & Hs' & Hpos & _).
    rewrite Hs in Hs'. injection Hs' as ->. simpl in Hp.
    destruct Hp as [Hp | (p & Hp & Hle)]; [ discriminate | ].
    injection Hp as ->. exact (Qlt_not_le _ _ Hpos Hle).
Qed.

(** C6, as the code has it.  With both indicators ready, a positive
    price and an exposure ratio that, as the code computes it (the float
    sum of the signed holding values, divided in floats by the total),
    does not exceed the maximum, a flat position whose price is strictly
    below the lower band, with the oscillator strictly below 30 and the
    trend filter reporting an uptrend, gets exactly one call:
    [SetHoldings(symbol, long_trade_size)] (the float 0.05 by
    default). *)
Theorem Execute_long_entry self indicators algorithm price holding exposure :
  passes_guards self indicators algorithm price holding exposure ->
  (Quantity holding == 0)%Q ->
  (price < LowerBand (CustomBollingerBands.bbands
                        (contrarian_bands indicators)))%Q ->
  (Current (RSIIndicator.rsi (rsi indicators)) < 30)%Q ->
  TrendFilter.IsUptrend (trend indicators) algorithm = Py.Ok true ->
  Execute self indicators algorithm =
    ([SetHoldings (symbol self) (long_trade_size self)], Py.Ok tt).
Proof.
  intros G F Hlow Hrsi Hup. pass_guards G.
  rewrite (flat_not_long _ F), (flat_not_short _ F), (proj2 (eq_true _ _) F).
  rewrite (proj2 (lt_true _ _) Hlow), (proj2 (lt_true _ _) Hrsi), Hup.
  reflexivity.
Qed.

(** C7.  No evaluation makes more than one [SetHoldings] call, so an
    EnterLong and an EnterShort are never both emitted. *)
Theorem Execute_at_most_one_entry self indicators algorithm :
  (length (List.filter is_entry
             (Py.calls (Execute self indicators algorithm))) <= 1)%nat.
Proof.
  destruct (Execute_guards self indicators algorithm)
    as [E | (price & holding & exposure & G)].
  - assert (N : List.filter is_entry
                  (Py.calls (Execute self indicators algorithm)) = []).
    { revert E. unfold orders.
      induction (Py.calls (Execute self indicators algorithm)) as [ | c cs IH];
        [ reflexivity | ].
      destruct c; simpl; intros E; try discriminate. apply IH, E. }
    rewrite N. simpl. lia.
  - destruct (sign_cases (Quantity holding)) as [F | [L | L]].
    + destruct (Execute_flat _ _ _ _ _ _ G F) as [(r & E) | [E | E]];
        rewrite E; simpl; lia.
    + rewrite (Execute_long _ _ _ _ _ _ G L).
      destruct (price <? _)%Q; destruct (price >=? _)%Q; simpl; lia.
    + rewrite (Execute_short _ _ _ _ _ _ G L).
      destruct (price >? _)%Q; destruct (price <=? _)%Q; simpl; lia.
Qed.

(** C1, as the code has it.  When the exposure ratio the code computes
    exceeds the maximum, every action is suppressed, the stop-loss and
    the middle-band exit included: [Execute] makes no position-changing
    call. *)
Theorem Execute_exposure_gate_blocks_everything self indicators algorithm exposure :
  portfolio_exposure algorithm = Py.Ok exposure ->
  (exposure > max_portfolio_exposure self)%Q ->
  orders (Py.calls (Execute self indicators algorithm)) = [].
Proof.
  intros He Hgt.
  destruct (Execute_guards self indicators algorithm)
    as [E | (price & holding & exposure' & G)]; [ exact E | exfalso ].
  destruct G as (_ & _ & _ & _ & _ & He' & Hle).
  rewrite He in He'. injection He' as <-.
  exact (Qlt_not_le _ _ Hgt Hle).
Qed.

(** C2, as the code has it.  The position-changing calls of one
    evaluation are: none, one entry, one [Liquidate], or two [Liquidate];
    an entry never comes with a [Liquidate].  There are two [Liquidate]
    calls exactly when the guards are passed and both the stop-loss
    condition and the middle-band exit condition hold for the position. *)
Theorem Execute_orders self indicators algorithm :
  let os := orders (Py.calls (Execute self indicators algorithm)) in
  (os = [] \/
   os = [SetHoldings (symbol self) (long_trade_size self)] \/
   os = [SetHoldings (symbol self) (- short_trade_size self)%Q] \/
   os = [Liquidate (symbol self)] \/
   os = [Liquidate (symbol self); Liquidate (symbol self)]) /\
  (os = [Liquidate (symbol self); Liquidate (symbol self)] <->
   exists price holding exposure,
     passes_guards self indicators algorithm price holding exposure /\
     let middle := MiddleBand (CustomBollingerBands.bbands
                                 (contrarian_bands indicators)) in
     (long_stop_loss_hit self holding price /\
      long_exit_hit holding price middle \/
      short_stop_loss_hit self holding price /\
      short_exit_hit holding price middle)).
Proof.
  cbv zeta. split; [ | split ].
  - destruct (Execute_order_cases self indicators algorithm)
      as [E | [E | [E | [E | (E & _)]]]]; auto 6.
  - intros E.
    destruct (Execute_order_cases self indicators algorithm)
      as [E' | [E' | [E' | [E' | (_ & W)]]]];
      [ rewrite E' in E; discriminate .. | exact W ].
  - intros (price & holding & exposure & G & C).
    destruct C as [((L & Hs) & _ & He) | ((L & Hs) & _ & He)].
    + rewrite (Execute_long _ _ _ _ _ _ G L).
      rewrite (proj2 (lt_true _ _) Hs), (proj2 (ge_true _ _) He).
      reflexivity.
    + rewrite (Execute_short _ _ _ _ _ _ G L).
      rewrite (proj2 (gt_true _ _) Hs), (proj2 (le_true _ _) He).
      reflexivity.
Qed.

(** C8, as the code has it.  Once the guards are passed (both indicators
    ready, positive price, computed exposure ratio within the maximum), a
    long position whose price is strictly below the float
    [average_price * (1 - long_stop_loss)] is liquidated by the stop-loss
    rule wherever the price stands with respect to the middle band: the
    stop-loss message and its [Liquidate] come first, and the middle-band
    exit adds a second [Liquidate] after them when the price is also at
    or above the middle band. *)
Theorem Execute_long_stop_loss self indicators algorithm price holding exposure :
  passes_guards self indicators algorithm price holding exposure ->
  long_stop_loss_hit self holding price ->
  Execute self indicators algorithm =
    (Debug (StopLossLong (symbol self) price) :: Liquidate (symbol self) ::
     (if (price >=? MiddleBand (CustomBollingerBands.bbands
                                  (contrarian_bands indicators)))%Q
      then [Liquidate (symbol self)]
      else []),
     Py.Ok tt).
Proof.
  intros G (L & Hs).
  rewrite (Execute_long _ _ _ _ _ _ G L), (proj2 (lt_true _ _) Hs).
  reflexivity.
Qed.

End Execute.

(** ** Execute on concrete snapshots *)

Section ExecuteExamples.
Import Lean AssetArbitrageStrategy Rules.
Local Open Scope Q_scope.

Ltac evaluate :=
  vm_compute; first [ reflexivity | discriminate | tauto ].

(** The band indicator is not ready: nothing is done, whatever the other
    inputs. *)
Lemma Execute_skips_without_signal_or_price_witness :
  orders (Py.calls
    (Execute (init "SPY") (Scenario.indicators_warming_up 25 17)
       (Scenario.algorithm 18 0 0 1000 10000))) = [].
Proof.
  apply Execute_skips_without_signal_or_price. left. reflexivity.
Defined.

(** Flat position, price 18, lower band 19, oscillator 25, price above
    its moving average 17: EnterLong(0.05). *)
Lemma Execute_long_entry_witness :
  Execute (init "SPY") (Scenario.indicators 19 20 21 25 17)
    (Scenario.algorithm 18 0 0 1000 10000)
  = ([SetHoldings "SPY" (Py.float 0.05)], Py.Ok tt).
Proof.
  apply (Execute_long_entry (init "SPY") _ _ 18
           {| Quantity := 0; AveragePrice := 0; HoldingsValue := 0 * 18 |}
           (Py.div 1000 10000)).
  - repeat split; evaluate.
  - evaluate.
  - evaluate.
  - evaluate.
  - evaluate.
Defined.

(** A long position of 10 at average price 100, price 94, middle band 90:
    the stop-loss condition and the exit condition both hold, the
    exposure ratio is 0.894, and no [Liquidate] is called. *)
Lemma Execute_exposure_gate_counterexample :
  let self := init "SPY" in
  let indicators := Scenario.indicators 80 90 100 50 23 in
  let algorithm := Scenario.algorithm 94 10 100 8000 10000 in
  let holding :=
    {| Quantity := 10; AveragePrice := 100; HoldingsValue := 10 * 94 |} in
  CustomBollingerBands.HasSignal (contrarian_bands indicators) = true /\
  RSIIndicator.HasSignal (rsi indicators) = true /\
  Securities algorithm !! symbol self = Some {| Price := Some 94 |} /\
  Portfolio algorithm !! symbol self = Some holding /\
  portfolio_exposure algorithm = Py.Ok (Py.div 8940 10000) /\
  (Py.div 8940 10000 > max_portfolio_exposure self)%Q /\
  long_stop_loss_hit self holding 94 /\
  long_exit_hit holding 94 90 /\
  ~ In (Liquidate "SPY") (Py.calls (Execute self indicators algorithm)).
Proof.
  cbv zeta. repeat split; try evaluate.
  vm_compute. intros [H | []]. discriminate.
Qed.

(** A long position at average price 90, price 100, middle band 95, with
    an exposure ratio of 0.9: the exit is suppressed too. *)
Lemma Execute_exposure_gate_blocks_everything_witness :
  orders (Py.calls
    (Execute (init "SPY") (Scenario.indicators 80 95 130 50 23)
       (Scenario.algorithm 100 10 90 8000 10000))) = [].
Proof.
  apply (Execute_exposure_gate_blocks_everything _ _ _ (Py.div 9000 10000)); evaluate.
Defined.

(** A long position of 10 at average price 100, price 94, middle band 90,
    exposure ratio 0.194: two [Liquidate] calls in one evaluation. *)
Lemma Execute_two_liquidates_counterexample :
  let os :=
    orders (Py.calls
      (Execute (init "SPY") (Scenario.indicators 80 90 100 50 23)
         (Scenario.algorithm 94 10 100 1000 10000))) in
  os = [Liquidate "SPY"; Liquidate "SPY"] /\ ~ (length os <= 1)%nat.
Proof.
  cbv zeta. split; [ reflexivity | ]. vm_compute. lia.
Qed.

(** A short position of 10 at average price 100, price 104, middle band
    110: both short conditions hold, hence two [Liquidate] calls. *)
Lemma Execute_orders_witness :
  orders (Py.calls
    (Execute (init "SPY") (Scenario.indicators 80 110 130 50 23)
       (Scenario.algorithm 104 (-10) 100 1000 10000)))
  = [Liquidate "SPY"; Liquidate "SPY"].
Proof.
  apply (proj2 (Execute_orders (init "SPY") _ _)).
  exists 104%Q,
    {| Quantity := -10; AveragePrice := 100; HoldingsValue := -10 * 104 |},
    (Py.div (-40) 10000).
  split.
  - repeat split; evaluate.
  - right. repeat split; evaluate.
Defined.

(** A long position of 50 at average price 100, stop-loss fraction 0.05,
    price 94, with an exposure ratio of 0.87: the stop-loss condition
    holds and no [Liquidate] is called. *)
Lemma Execute_long_stop_loss_counterexample :
  let self := init "SPY" in
  let indicators := Scenario.indicators 80 120 130 50 23 in
  let algorithm := Scenario.algorithm 94 50 100 4000 10000 in
  let holding :=
    {| Quantity := 50; AveragePrice := 100; HoldingsValue := 50 * 94 |} in
  CustomBollingerBands.HasSignal (contrarian_bands indicators) = true /\
  RSIIndicator.HasSignal (rsi indicators) = true /\
  Securities algorithm !! symbol self = Some {| Price := Some 94 |} /\
  Portfolio algorithm !! symbol self = Some holding /\
  long_stop_loss_hit self holding 94 /\
  ~ In (Liquidate "SPY") (Py.calls (Execute self indicators algorithm)).
Proof.
  cbv zeta. repeat split; try evaluate.
  vm_compute. intros [H | []]. discriminate.
Qed.

(** The same position with an exposure ratio of 0.57: the stop-loss
    message, then [Liquidate]; the price is below the middle band 120, so
    the exit rule adds nothing. *)
Lemma Execute_long_stop_loss_witness :
  Execute (init "SPY") (Scenario.indicators 80 120 130 50 23)
    (Scenario.algorithm 94 50 100 1000 10000)
  = ([Debug (StopLossLong "SPY" 94); Liquidate "SPY"], Py.Ok tt).
Proof.
  assert (G : passes_guards (init "SPY")
                (Scenario.indicators 80 120 130 50 23)
                (Scenario.algorithm 94 50 100 1000 10000) 94
                {| Quantity := 50; AveragePrice := 100;
                   HoldingsValue := 50 * 94 |}
                (Py.div 5700 10000))
    by (repeat split; evaluate).
  assert (C : long_stop_loss_hit (init "SPY")
                {| Quantity := 50; AveragePrice := 100;
                   HoldingsValue := 50 * 94 |} 94)
    by (split; evaluate).
  exact (Execute_long_stop_loss _ _ _ _ _ _ G C).
Defined.

End ExecuteExamples.

(* ------------------------------------------------------------------ *)
(** ** The exposure ratio                                               *)
(* ------------------------------------------------------------------ *)

Section Exposure.
Import Lean AssetArbitrageStrategy Rules.
Local Open Scope Q_scope.

Lemma sum_of_map {A} (value : A -> Q) (xs : list A) (start : Q) :
  fold_left Py.add (map value xs) start
  = fold_left (fun acc x => Py.add acc (value x)) xs start.
Proof.
  revert start. induction xs as [ | x xs IH]; intros start; simpl;
    [ reflexivity | apply IH ].
Qed.

Lemma absolute_of_nonnegative (hs : list SecurityHolding) :
  Forall (fun h => 0 <= HoldingsValue h) hs ->
  map (fun h => Qabs (HoldingsValue h)) hs = map HoldingsValue hs.
Proof.
  induction 1 as [ | h hs Hh _ IH]; simpl; [ reflexivity | ].
  rewrite IH. f_equal.
  destruct (HoldingsValue h) as [n d]. unfold Qle in Hh. simpl in Hh.
  unfold Qabs. f_equal. apply Z.abs_eq. lia.
Qed.

(** C3, as the code has it.  For every portfolio whose total value is not
    zero, the ratio the gate uses is computed in floats from the holding
    values with their signs: they are added from left to right, in the
    order of [Portfolio.Values], starting from 0, and the sum is divided
    by the total portfolio value.  When no holding value is negative it
    is the ratio that the same computation gives on the absolute
    values. *)
Theorem portfolio_exposure_is_signed (algorithm : QCAlgorithm) :
  ~ TotalPortfolioValue algorithm == 0 ->
  exists ratio,
    portfolio_exposure algorithm = Py.Ok ratio /\
    ratio =
      Py.div
        (fold_left (fun sum h => Py.add sum (HoldingsValue h))
           (Values (Portfolio algorithm)) 0)
        (TotalPortfolioValue algorithm) /\
    (Forall (fun h => 0 <= HoldingsValue h) (Values (Portfolio algorithm)) ->
     Spec.absolute_exposure algorithm = Py.Ok ratio).
Proof.
  intros Hnz. unfold portfolio_exposure, Spec.absolute_exposure, Py.truediv.
  rewrite (proj2 (eq_false _ _) Hnz).
  eexists. split; [ reflexivity | ]. split.
  - unfold Py.sum. rewrite sum_of_map. reflexivity.
  - intros Hpos. rewrite (absolute_of_nonnegative _ Hpos). reflexivity.
Qed.

(** Two long holdings worth 3000 and 6000 in a portfolio of total value
    10000: the ratio is the float 0.9, with or without absolute
    values. *)
Lemma portfolio_exposure_is_signed_witness :
  portfolio_exposure (Scenario.algorithm 50 60 55 6000 10000)
    = Py.Ok (Py.float 0.9) /\
  Spec.absolute_exposure (Scenario.algorithm 50 60 55 6000 10000)
    = Py.Ok (Py.float 0.9).
Proof.
  destruct (portfolio_exposure_is_signed
              (Scenario.algorithm 50 60 55 6000 10000))
    as (ratio & E & V & A).
  - vm_compute. discriminate.
  - assert (R : ratio = Py.float 0.9) by (rewrite V; vm_compute; reflexivity).
    rewrite R in E, A. split; [ exact E | ].
    apply A. repeat constructor; vm_compute; discriminate.
Defined.

(** A long holding worth 6000 and a short holding worth -3000 in a
    portfolio of total value 10000: the sum of the absolute holding
    values over the total is 0.9, above the default maximum 0.80, and the
    code's ratio is the float 0.3, below it. *)
Lemma portfolio_exposure_counterexample :
  let algorithm := Scenario.algorithm 50 (-60) 55 6000 10000 in
  Spec.exposure_ratio algorithm == 0.9 /\
  exists ratio,
    portfolio_exposure algorithm = Py.Ok ratio /\
    ratio == Py.float 0.3 /\
    ~ ratio == Spec.exposure_ratio algorithm.
Proof.
  cbv zeta. split; [ vm_compute; reflexivity | ].
  eexists. split; [ reflexivity | ].
  split; vm_compute; [ reflexivity | discriminate ].
Qed.

(** The ratio depends on the order of the holdings: the same three
    values over the same total give a ratio above the double 0.8 in one
    order and below it in another. *)
Example portfolio_exposure_order :
  portfolio_exposure
    (Scenario.account 18
       (Py.float 74106.7, Py.float 61276.69, Py.float 20900.89)
       (Py.float 195355.35))
  = Py.Ok (7205759403792795 # 9007199254740992) /\
  portfolio_exposure
    (Scenario.account 18
       (Py.float 74106.7, Py.float 20900.89, Py.float 61276.69)
       (Py.float 195355.35))
  = Py.Ok (7205759403792793 # 9007199254740992) /\
  Py.float 0.80 = 3602879701896397 # 4503599627370496.
Proof. vm_compute. repeat split. Qed.

End Exposure.

(* ------------------------------------------------------------------ *)
(** ** Indicators: the trend filter and the updates                     *)
(* ------------------------------------------------------------------ *)

Section IndicatorClaims.
Import Lean Rules.
Context {B S T : Type} `{!BollingerBands B, !Indicator S, !Indicator T}.
Local Open Scope Q_scope.

(** C9.  [IsUptrend] and [IsDowntrend] never both return [True]; both
    return [False] when the moving average is not ready, and when the
    current price equals the moving average. *)
Theorem TrendFilter_exclusive (self : TrendFilter.t T) (algorithm : QCAlgorithm) :
  ~ (TrendFilter.IsUptrend self algorithm = Py.Ok true /\
     TrendFilter.IsDowntrend self algorithm = Py.Ok true) /\
  (IsReady (TrendFilter.sma self) = false ->
   TrendFilter.IsUptrend self algorithm = Py.Ok false /\
   TrendFilter.IsDowntrend self algorithm = Py.Ok false) /\
  (forall price,
     Securities algorithm !! TrendFilter.symbol self
       = Some {| Price := Some price |} ->
     price == Current (TrendFilter.sma self) ->
     TrendFilter.IsUptrend self algorithm = Py.Ok false /\
     TrendFilter.IsDowntrend self algorithm = Py.Ok false).
Proof.
  unfold TrendFilter.IsUptrend, TrendFilter.IsDowntrend, Py.getitem.
  split; [ | split ].
  - destruct (IsReady (TrendFilter.sma self)); [ | intros [? _]; discriminate ].
    destruct (Securities algorithm !! TrendFilter.symbol self)
      as [[[price | ]] | ]; cbn; try (intros [? _]; discriminate).
    intros [Hup Hdown].
    injection Hup as Hup. injection Hdown as Hdown.
    apply gt_true in Hup. apply lt_true in Hdown.
    exact (Qlt_irrefl _ (Qlt_trans _ _ _ Hup Hdown)).
  - intros ->. split; reflexivity.
  - intros price Hs E. rewrite Hs. cbn.
    destruct (IsReady (TrendFilter.sma self)); [ | split; reflexivity ].
    assert (Hup : (price >? Current (TrendFilter.sma self)) = false).
    { apply gt_false. rewrite E. apply Qle_refl. }
    assert (Hdown : (price <? Current (TrendFilter.sma self)) = false).
    { apply lt_false. rewrite E. apply Qle_refl. }
    rewrite Hup, Hdown. split; reflexivity.
Qed.

(** C10.  An [Update] with a slice that has no bar for the indicator's
    symbol (the symbol is not a key, or its value is [None]) returns the
    indicator as it was, for each of the four indicators. *)
Theorem Update_without_bar (data : Slice) :
  (forall self : CustomBollingerBands.t B,
     no_bar data (CustomBollingerBands.symbol self) ->
     CustomBollingerBands.Update self data = self) /\
  (forall self : RSIIndicator.t S,
     no_bar data (RSIIndicator.symbol self) ->
     RSIIndicator.Update self data = self) /\
  (forall self : HistoricalVolatility.t,
     no_bar data (HistoricalVolatility.symbol self) ->
     HistoricalVolatility.Update self data = self) /\
  (forall self : TrendFilter.t T,
     no_bar data (TrendFilter.symbol self) ->
     TrendFilter.Update self data = self).
Proof.
  repeat split; intros self [E | E].
  all: first
    [ progress unfold CustomBollingerBands.Update
    | progress unfold RSIIndicator.Update
    | progress unfold HistoricalVolatility.Update
    | progress unfold TrendFilter.Update ];
    rewrite E; reflexivity.
Qed.

End IndicatorClaims.

Section IndicatorExamples.
Import Lean Rules.
Local Open Scope Q_scope.

(** Price 20 against a ready moving average of 20: neither trend. *)
Lemma TrendFilter_exclusive_witness :
  let self :=
    {| TrendFilter.symbol := "SPY"; TrendFilter.sma := Probe.reading 20 |} in
  let algorithm := Scenario.algorithm 20 0 0 1000 10000 in
  TrendFilter.IsUptrend self algorithm = Py.Ok false /\
  TrendFilter.IsDowntrend self algorithm = Py.Ok false.
Proof.
  cbv zeta.
  apply (proj2 (proj2 (TrendFilter_exclusive
           {| TrendFilter.symbol := "SPY";
              TrendFilter.sma := Probe.reading 20 |}
           (Scenario.algorithm 20 0 0 1000 10000))) 20);
    reflexivity.
Defined.

(** The slice has a bar for SPY, [None] for QQQ and nothing for IWM:
    indicators of QQQ and of IWM keep their state. *)
Lemma Update_without_bar_witness :
  let bands :=
    {| CustomBollingerBands.symbol := "QQQ";
       CustomBollingerBands.bbands := Probe.bands 19 20 21 |} in
  let oscillator :=
    {| RSIIndicator.symbol := "IWM"; RSIIndicator.rsi := Probe.reading 25 |} in
  let volatility := HistoricalVolatility.init "QQQ" 20 in
  let filter :=
    {| TrendFilter.symbol := "IWM"; TrendFilter.sma := Probe.reading 17 |} in
  CustomBollingerBands.Update bands Scenario.slice = bands /\
  RSIIndicator.Update oscillator Scenario.slice = oscillator /\
  HistoricalVolatility.Update volatility Scenario.slice = volatility /\
  TrendFilter.Update filter Scenario.slice = filter.
Proof.
  cbv zeta.
  destruct (Update_without_bar (B := Probe.t) (S := Probe.t) (T := Probe.t)
              Scenario.slice) as (Hb & Hr & Hv & Ht).
  split; [ | split; [ | split ] ].
  - apply Hb. right. reflexivity.
  - apply Hr. left. reflexivity.
  - apply Hv. right. reflexivity.
  - apply Ht. left. reflexivity.
Defined.

(** The same slice does update an indicator of SPY. *)
Example Update_with_bar :
  CustomBollingerBands.Update
    {| CustomBollingerBands.symbol := "SPY";
       CustomBollingerBands.bbands := Probe.bands 19 20 21 |}
    Scenario.slice
  = {| CustomBollingerBands.symbol := "SPY";
       CustomBollingerBands.bbands :=
         Probe.record_update (Probe.bands 19 20 21) 1 100 |}.
Proof. reflexivity. Qed.

End IndicatorExamples.

(* ------------------------------------------------------------------ *)
(** ** The volatility estimator                                         *)
(* ------------------------------------------------------------------ *)

Section Volatility.
Import Lean Rules HistoricalVolatility.
Local Open Scope R_scope.

Lemma Update_symbol (self : HistoricalVolatility.t) data :
  symbol (Update self data) = symbol self.
Proof.
  unfold Update.
  destruct (data !! symbol self) as [[bar | ] | ]; try reflexivity.
  destruct (items (returns self)); reflexivity.
Qed.

Lemma Update_Size (self : HistoricalVolatility.t) data :
  Size (returns (Update self data)) = Size (returns self).
Proof.
  unfold Update.
  destruct (data !! symbol self) as [[bar | ] | ]; try reflexivity.
  destruct (items (returns self)); reflexivity.
Qed.

(** [Count > 0] is the case where the window has a head. *)
Lemma Count_positive {A} (w : RollingWindow A) :
  (0 < rw_Count w)%nat <-> exists head rest, items w = head :: rest.
Proof.
  unfold rw_Count. destruct (items w) as [ | head rest]; simpl; split.
  - lia.
  - intros (? & ? & ?). discriminate.
  - eauto.
  - lia.
Qed.

(** What the code takes for the previous price is the previous return;
    when that is zero it takes the current price, and the return it
    computes is the logarithm of one. *)
Lemma log_return_of_zero_return (price : R) :
  (if Rlt_dec 0 (if Req_dec_T 0 0 then price else 0)
   then Np.log (price / (if Req_dec_T 0 0 then price else 0))
   else 0) = 0.
Proof.
  destruct (Req_dec_T 0 0) as [_ | N]; [ | contradiction ].
  destruct (Rlt_dec 0 price) as [Hpos | _]; [ | reflexivity ].
  unfold Np.log. replace (price / price) with 1 by (field; lra).
  apply ln_1.
Qed.

Lemma Update_keeps_zero_returns (self : HistoricalVolatility.t) data :
  Forall (fun r => r = 0) (items (returns self)) ->
  Forall (fun r => r = 0) (items (returns (Update self data))).
Proof.
  intros Z. unfold Update.
  destruct (data !! symbol self) as [[bar | ] | ]; try exact Z.
  destruct (items (returns self)) as [ | returns_0 rest] eqn:E; simpl.
  - rewrite E. apply Forall_take. constructor; [ reflexivity | constructor ].
  - rewrite E. apply Forall_take.
    inversion Z as [ | ? ? Z0 Zrest]; subst.
    constructor; [ apply log_return_of_zero_return | ].
    constructor; [ reflexivity | exact Zrest ].
Qed.

(** Whatever the series of slices, the window only ever holds zeros. *)
Lemma returns_are_always_zero (datas : list Slice)
    (self : HistoricalVolatility.t) :
  Forall (fun r => r = 0) (items (returns self)) ->
  Forall (fun r => r = 0) (items (returns (fold_left Update datas self))).
Proof.
  revert self. induction datas as [ | data datas IH]; intros self Z; simpl.
  - exact Z.
  - apply IH, Update_keeps_zero_returns, Z.
Qed.

Lemma mean_of_zeros (xs : list R) :
  Forall (fun r => r = 0) xs -> Np.mean xs = 0.
Proof.
  intros Z. unfold Np.mean.
  assert (E : fold_right Rplus 0 xs = 0).
  { induction Z as [ | x xs -> _ IH]; simpl; [ reflexivity | ].
    rewrite IH. lra. }
  rewrite E. unfold Rdiv. apply Rmult_0_l.
Qed.

Lemma std_of_zeros (xs : list R) :
  Forall (fun r => r = 0) xs -> Np.std xs = 0.
Proof.
  intros Z. unfold Np.std. rewrite (mean_of_zeros xs Z).
  rewrite mean_of_zeros; [ apply sqrt_0 | ].
  induction Z as [ | x xs -> _ IH]; simpl; constructor; [ | exact IH ].
  unfold Rsqr. lra.
Qed.

(** [GetVolatility] is undefined until the window is ready; from then on
    it is the standard deviation of a window of zeros. *)
Lemma GetVolatility_of_run (s : string) (period : nat)
    (datas : list Slice) :
  let self := fold_left Update datas (init s period) in
  GetVolatility self =
    if rw_IsReady (returns self) then Some 0 else None.
Proof.
  cbv zeta. unfold GetVolatility.
  destruct (rw_IsReady _); [ | reflexivity ].
  rewrite std_of_zeros; [ reflexivity | ].
  apply returns_are_always_zero. constructor.
Qed.

(** The window is ready once [period] slices with a bar for the symbol
    have been fed. *)
Lemma Update_Samples (self : HistoricalVolatility.t) data bar :
  data !! symbol self = Some (Some bar) ->
  Samples (returns (Update self data)) = S (Samples (returns self)).
Proof.
  intros E. unfold Update. rewrite E.
  destruct (items (returns self)); reflexivity.
Qed.

Lemma Samples_of_run (datas : list Slice)
    (self : HistoricalVolatility.t) :
  Forall (fun data => exists bar, data !! symbol self = Some (Some bar)) datas ->
  Samples (returns (fold_left Update datas self))
  = (length datas + Samples (returns self))%nat.
Proof.
  revert self. induction datas as [ | data datas IH]; intros self A; simpl.
  - reflexivity.
  - inversion A as [ | ? ? (bar & E) A']; subst.
    rewrite IH.
    + rewrite (Update_Samples _ _ _ E). lia.
    + rewrite Update_symbol. exact A'.
Qed.

Lemma Size_of_run (datas : list Slice)
    (self : HistoricalVolatility.t) :
  Size (returns (fold_left Update datas self)) = Size (returns self).
Proof.
  revert self. induction datas as [ | data datas IH]; intros self; simpl.
  - reflexivity.
  - rewrite IH. apply Update_Size.
Qed.

(** X11.  Fed slices that all carry a bar for its symbol, the estimator
    has no volatility before [period] of them, and from then on its
    volatility is zero, whatever the closes. *)
Lemma GetVolatility_ready (s : string) (period : nat)
    (datas : list Slice) :
  Forall (fun data => exists bar, data !! s = Some (Some bar)) datas ->
  GetVolatility (fold_left Update datas (init s period)) =
    if (period <=? length datas)%nat then Some 0 else None.
Proof.
  intros A. rewrite GetVolatility_of_run. unfold rw_IsReady.
  rewrite Size_of_run, (Samples_of_run datas (init s period) A). simpl.
  rewrite Nat.add_0_r. reflexivity.
Qed.

(** One update with a bar for the indicator's symbol. *)
Lemma Update_one_bar (self : HistoricalVolatility.t) (s : string)
    (time : Z) (close : Q) :
  symbol self = s ->
  Update self (one_bar s time close) =
    {| symbol := s;
       returns :=
         rw_Add (returns self)
           match items (returns self) with
           | returns_0 :: _ =>
               if Rlt_dec 0 (if Req_dec_T returns_0 0
                             then Q2R close else returns_0)
               then Np.log (Q2R close
                            / (if Req_dec_T returns_0 0
                               then Q2R close else returns_0))
               else 0
           | [] => 0
           end |}.
Proof.
  intros <-. unfold Update, one_bar. rewrite lookup_singleton_eq. simpl.
  destruct (items (returns self)); reflexivity.
Qed.

(** C4, where the code departs from it.  Fed the closes 100 and then 110,
    the estimator's window holds two zero returns; the log-return of the
    two consecutive closes is [ln (110 / 100)], which is not zero. *)
Theorem HistoricalVolatility_returns_at_100_110 :
  let self :=
    Update (Update (init "SPY" 20) (one_bar "SPY" 1 100%Q))
      (one_bar "SPY" 2 110%Q) in
  items (returns self) = [0; 0] /\
  Spec.log_returns [100; 110] = [ln (110 / 100); 0] /\
  ln (110 / 100) <> 0.
Proof.
  cbv zeta. split; [ | split ].
  - rewrite (Update_one_bar (init "SPY" 20) "SPY") by reflexivity.
    simpl.
    rewrite (Update_one_bar _ "SPY") by reflexivity.
    simpl. rewrite log_return_of_zero_return. reflexivity.
  - reflexivity.
  - assert (L : ln 1 < ln (110 / 100)) by (apply ln_increasing; lra).
    rewrite ln_1 in L. lra.
Qed.

End Volatility.

(* ------------------------------------------------------------------ *)
(** ** Execute: the other rules, the errors                             *)
(* ------------------------------------------------------------------ *)

Section ExecuteRules.
Import Lean AssetArbitrageStrategy Rules.
Context {B S T : Type} `{!BollingerBands B, !Indicator S, !Indicator T}.
Implicit Types (self : AssetArbitrageStrategy.t)
  (indicators : Indicators B S T) (algorithm : QCAlgorithm).

Ltac through_guards G :=
  let Hb := fresh "Hb" in let Hr := fresh "Hr" in
  let Hs := fresh "Hs" in let Hp := fresh "Hp" in
  let Hh := fresh "Hh" in let He := fresh "He" in
  let Hm := fresh "Hm" in
  destruct G as (Hb & Hr & Hs & Hp & Hh & He & Hm);
  unfold Execute; rewrite Hb, Hr; simpl;
  unfold Py.getitem; rewrite Hs, Hh; cbn;
  rewrite (proj2 (le_false _ _) Hp), He; cbn;
  rewrite (proj2 (gt_false _ _) Hm).

(** Two evaluations that pass the guards read the same price and the same
    holding. *)
Lemma passes_guards_reads self indicators algorithm
    price holding exposure price' holding' exposure' :
  passes_guards self indicators algorithm price holding exposure ->
  passes_guards self indicators algorithm price' holding' exposure' ->
  price' = price /\ holding' = holding.
Proof.
  intros (_ & _ & Hs & _ & Hh & _) (_ & _ & Hs' & _ & Hh' & _).
  rewrite Hs in Hs'. rewrite Hh in Hh'.
  injection Hs' as <-. injection Hh' as <-. auto.
Qed.

Lemma no_order_no_entry (cs : list Call) :
  orders cs = [] -> List.filter is_entry cs = [].
Proof.
  unfold orders. induction cs as [ | c cs IH]; [ reflexivity | ].
  destruct c; simpl; intros E; try discriminate. apply IH, E.
Qed.

Lemma no_order_no_liquidate (cs : list Call) (s : string) :
  orders cs = [] -> ~ In (Liquidate s) cs.
Proof.
  unfold orders. induction cs as [ | c cs IH]; simpl; [ tauto | ].
  destruct c; simpl; intros E; try discriminate.
  intros [D | I]; [ discriminate | exact (IH E I) ].
Qed.

(** Every position-changing call of an evaluation is one of three: the
    long entry, the short entry, or the liquidation of the strategy's own
    symbol. *)
Lemma Execute_order_kinds self indicators algorithm (c : Call) :
  In c (Py.calls (Execute self indicators algorithm)) ->
  is_order c = true ->
  c = SetHoldings (symbol self) (long_trade_size self) \/
  c = SetHoldings (symbol self) (- short_trade_size self)%Q \/
  c = Liquidate (symbol self).
Proof.
  intros I O.
  assert (I' : In c (orders (Py.calls (Execute self indicators algorithm)))).
  { unfold orders. apply filter_In. auto. }
  destruct (Execute_order_cases self indicators algorithm)
    as [E | [E | [E | [E | (E & _)]]]]; rewrite E in I'; simpl in I';
    intuition auto.
Qed.

(** X1.  Short entry: past the guards, a flat position whose price is
    strictly above the upper band, with the oscillator strictly above 70
    and the trend filter reporting a downtrend, gets exactly one call,
    [SetHoldings(symbol, -short_trade_size)]. *)
Theorem Execute_short_entry self indicators algorithm price holding exposure :
  passes_guards self indicators algorithm price holding exposure ->
  (Quantity holding == 0)%Q ->
  (price > UpperBand (CustomBollingerBands.bbands
                        (contrarian_bands indicators)))%Q ->
  (Current (RSIIndicator.rsi (rsi indicators)) > 70)%Q ->
  TrendFilter.IsDowntrend (trend indicators) algorithm = Py.Ok true ->
  Execute self indicators algorithm =
    ([SetHoldings (symbol self) (- short_trade_size self)%Q], Py.Ok tt).
Proof.
  intros G F Hup Hrsi Hdown. through_guards G.
  rewrite (flat_not_long _ F), (flat_not_short _ F), (proj2 (eq_true _ _) F).
  assert (Hnot : (Current (RSIIndicator.rsi (rsi indicators)) <? 30)%Q = false).
  { apply lt_false. apply Qlt_le_weak.
    apply Qlt_trans with (2 := Hrsi). reflexivity. }
  rewrite Hnot, andb_false_r.
  rewrite (proj2 (gt_true _ _) Hup), (proj2 (gt_true _ _) Hrsi), Hdown.
  reflexivity.
Qed.

(** X2.  Short stop-loss: past the guards, a short position whose price
    is strictly above the float [average_price * (1 + short_stop_loss)]
    gets the stop-loss message and a [Liquidate]; the middle-band exit
    adds a second [Liquidate] when the price is also at or below the
    middle band. *)
Theorem Execute_short_stop_loss self indicators algorithm price holding exposure :
  passes_guards self indicators algorithm price holding exposure ->
  short_stop_loss_hit self holding price ->
  Execute self indicators algorithm =
    (Debug (StopLossShort (symbol self) price) :: Liquidate (symbol self) ::
     (if (price <=? MiddleBand (CustomBollingerBands.bbands
                                  (contrarian_bands indicators)))%Q
      then [Liquidate (symbol self)]
      else []),
     Py.Ok tt).
Proof.
  intros G (L & Hs).
  rewrite (Execute_short _ _ _ _ _ _ G L), (proj2 (gt_true _ _) Hs).
  reflexivity.
Qed.

(** X3.  Middle-band exit alone: past the guards, a long position at or
    above the middle band and not below its stop level, or a short
    position at or below the middle band and not above its stop level,
    gets exactly one [Liquidate] and no message.  The stop levels are the
    floats [average_price * (1 - long_stop_loss)] and
    [average_price * (1 + short_stop_loss)]. *)
Theorem Execute_middle_band_exit self indicators algorithm price holding exposure :
  passes_guards self indicators algorithm price holding exposure ->
  let middle := MiddleBand (CustomBollingerBands.bbands
                              (contrarian_bands indicators)) in
  (long_exit_hit holding price middle /\
   (long_stop_level self holding <= price)%Q) \/
  (short_exit_hit holding price middle /\
   (price <= short_stop_level self holding)%Q) ->
  Execute self indicators algorithm = ([Liquidate (symbol self)], Py.Ok tt).
Proof.
  cbv zeta. intros G [((L & He) & Hs) | ((L & He) & Hs)].
  - rewrite (Execute_long _ _ _ _ _ _ G L).
    rewrite (proj2 (lt_false _ _) Hs), (proj2 (ge_true _ _) He).
    reflexivity.
  - rewrite (Execute_short _ _ _ _ _ _ G L).
    rewrite (proj2 (gt_false _ _) Hs), (proj2 (le_true _ _) He).
    reflexivity.
Qed.

(** X4.  An open position that is neither at its stop level nor back at
    the middle band is held: past the guards, a long position with
    [average_price * (1 - long_stop_loss) <= price < middle], or a short
    position with [middle < price <= average_price * (1 + short_stop_loss)],
    the two products being the floats the code computes, gets no call at
    all. *)
Theorem Execute_holds_position self indicators algorithm price holding exposure :
  passes_guards self indicators algorithm price holding exposure ->
  let middle := MiddleBand (CustomBollingerBands.bbands
                              (contrarian_bands indicators)) in
  ((0 < Quantity holding)%Q /\
   (long_stop_level self holding <= price)%Q /\
   (price < middle)%Q) \/
  ((Quantity holding < 0)%Q /\
   (price <= short_stop_level self holding)%Q /\
   (middle < price)%Q) ->
  Execute self indicators algorithm = ([], Py.Ok tt).
Proof.
  cbv zeta. intros G [(L & Hs & He) | (L & Hs & He)].
  - rewrite (Execute_long _ _ _ _ _ _ G L).
    rewrite (proj2 (lt_false _ _) Hs).
    apply (proj2 (le_false _ _)) in He. unfold Py.ge. unfold Py.le in He.
    rewrite He. reflexivity.
  - rewrite (Execute_short _ _ _ _ _ _ G L).
    rewrite (proj2 (gt_false _ _) Hs), (proj2 (le_false _ _) He).
    reflexivity.
Qed.

(** X5.  The rules follow the sign of the position read at the start of
    the evaluation: a position that is not flat never gets an entry, and
    a flat position never gets a [Liquidate], whatever the other
    inputs. *)
Theorem Execute_follows_position self indicators algorithm holding :
  Portfolio algorithm !! symbol self = Some holding ->
  (~ (Quantity holding == 0)%Q ->
   List.filter is_entry (Py.calls (Execute self indicators algorithm)) = []) /\
  ((Quantity holding == 0)%Q ->
   ~ In (Liquidate (symbol self))
       (Py.calls (Execute self indicators algorithm))).
Proof.
  intros Hh.
  destruct (Execute_guards self indicators algorithm)
    as [E | (price & holding' & exposure & G)].
  - split; intros _.
    + apply no_order_no_entry, E.
    + apply no_order_no_liquidate, E.
  - assert (holding' = holding) as ->.
    { destruct G as (_ & _ & _ & _ & Hh' & _).
      rewrite Hh in Hh'. injection Hh' as <-. reflexivity. }
    split.
    + intros N.
      destruct (sign_cases (Quantity holding)) as [F | [L | L]];
        [ contradiction | | ].
      * rewrite (Execute_long _ _ _ _ _ _ G L).
        destruct (price <? _)%Q; destruct (price >=? _)%Q; reflexivity.
      * rewrite (Execute_short _ _ _ _ _ _ G L).
        destruct (price >? _)%Q; destruct (price <=? _)%Q; reflexivity.
    + intros F.
      destruct (Execute_flat _ _ _ _ _ _ G F) as [(r & E) | [E | E]];
        rewrite E; simpl; intuition discriminate.
Qed.

(** X6.  A portfolio whose total value is zero makes the evaluation fail:
    with both indicators ready, a positive price and a holding for the
    symbol, [Execute] raises [ZeroDivisionError] and has made no call. *)
Theorem Execute_zero_total self indicators algorithm price holding :
  CustomBollingerBands.HasSignal (contrarian_bands indicators) = true ->
  RSIIndicator.HasSignal (rsi indicators) = true ->
  Securities algorithm !! symbol self = Some {| Price := Some price |} ->
  (0 < price)%Q ->
  Portfolio algorithm !! symbol self = Some holding ->
  (TotalPortfolioValue algorithm == 0)%Q ->
  Execute self indicators algorithm = ([], Py.Raise Py.ZeroDivisionError).
Proof.
  intros Hb Hr Hs Hp Hh Hz.
  unfold Execute. rewrite Hb, Hr. simpl.
  unfold Py.getitem. rewrite Hs, Hh. cbn.
  rewrite (proj2 (le_false _ _) Hp).
  unfold portfolio_exposure, Py.truediv.
  rewrite (proj2 (eq_true _ _) Hz). reflexivity.
Qed.

(** X7.  With both indicators ready, a symbol without a security, or
    without a holding, makes [Execute] raise [KeyError] before any call:
    the holding is looked up before the price is checked, so an invalid
    price is not even reported. *)
Theorem Execute_missing_key self indicators algorithm :
  CustomBollingerBands.HasSignal (contrarian_bands indicators) = true ->
  RSIIndicator.HasSignal (rsi indicators) = true ->
  Securities algorithm !! symbol self = None \/
  Portfolio algorithm !! symbol self = None ->
  Execute self indicators algorithm = ([], Py.Raise Py.KeyError).
Proof.
  intros Hb Hr Hk.
  unfold Execute. rewrite Hb, Hr. simpl. unfold Py.getitem.
  destruct Hk as [Hs | Hh].
  - rewrite Hs. reflexivity.
  - rewrite Hh.
    destruct (Securities algorithm !! symbol self); reflexivity.
Qed.

(** X8.  Past the guards, with a trend filter that watches the strategy's
    own symbol, the evaluation always completes: [Execute] returns
    without an exception. *)
Theorem Execute_completes self indicators algorithm price holding exposure :
  passes_guards self indicators algorithm price holding exposure ->
  TrendFilter.symbol (trend indicators) = symbol self ->
  snd (Execute self indicators algorithm) = Py.Ok tt.
Proof.
  intros G Hsym.
  destruct (sign_cases (Quantity holding)) as [F | [L | L]].
  - assert (Hs : Securities algorithm !! TrendFilter.symbol (trend indicators)
                 = Some {| Price := Some price |}).
    { rewrite Hsym. destruct G as (_ & _ & Hs & _). exact Hs. }
    assert (Up : exists b, TrendFilter.IsUptrend (trend indicators) algorithm
                           = Py.Ok b).
    { unfold TrendFilter.IsUptrend, Py.getitem. rewrite Hs. cbn.
      destruct (IsReady _); eauto. }
    assert (Down : exists b, TrendFilter.IsDowntrend (trend indicators) algorithm
                             = Py.Ok b).
    { unfold TrendFilter.IsDowntrend, Py.getitem. rewrite Hs. cbn.
      destruct (IsReady _); eauto. }
    destruct Up as (up & Up). destruct Down as (down & Down).
    through_guards G.
    rewrite (flat_not_long _ F), (flat_not_short _ F),
      (proj2 (eq_true _ _) F), Up, Down.
    cbn.
    destruct (price <? _)%Q; destruct (Current _ <? 30)%Q;
      destruct (price >? _)%Q; destruct (Current _ >? 70)%Q;
      destruct up; destruct down; reflexivity.
  - rewrite (Execute_long _ _ _ _ _ _ G L). reflexivity.
  - rewrite (Execute_short _ _ _ _ _ _ G L). reflexivity.
Qed.

End ExecuteRules.

(* ------------------------------------------------------------------ *)
(** ** Indicators: the trend filter's errors, the estimator's window    *)
(* ------------------------------------------------------------------ *)

Section TrendFilterEdges.
Import Lean.
Context {T : Type} `{!Indicator T}.
Local Open Scope Q_scope.

(** X9.  A ready trend filter needs the price of its symbol: without a
    security for the symbol both [IsUptrend] and [IsDowntrend] raise
    [KeyError], and with a price that is [None] both raise
    [TypeError]. *)
Theorem TrendFilter_needs_price (self : TrendFilter.t T) (algorithm : QCAlgorithm) :
  IsReady (TrendFilter.sma self) = true ->
  (Securities algorithm !! TrendFilter.symbol self = None ->
   TrendFilter.IsUptrend self algorithm = Py.Raise Py.KeyError /\
   TrendFilter.IsDowntrend self algorithm = Py.Raise Py.KeyError) /\
  (Securities algorithm !! TrendFilter.symbol self
     = Some {| Price := None |} ->
   TrendFilter.IsUptrend self algorithm = Py.Raise Py.TypeError /\
   TrendFilter.IsDowntrend self algorithm = Py.Raise Py.TypeError).
Proof.
  intros R. unfold TrendFilter.IsUptrend, TrendFilter.IsDowntrend, Py.getitem.
  rewrite R. split; intros ->; split; reflexivity.
Qed.

(** X10.  A ready trend filter whose symbol has a price different from
    the moving average reports exactly one trend: [IsDowntrend] returns
    the negation of what [IsUptrend] returns. *)
Theorem TrendFilter_one_trend (self : TrendFilter.t T) (algorithm : QCAlgorithm)
    (price : Q) :
  IsReady (TrendFilter.sma self) = true ->
  Securities algorithm !! TrendFilter.symbol self
    = Some {| Price := Some price |} ->
  ~ price == Current (TrendFilter.sma self) ->
  exists up,
    TrendFilter.IsUptrend self algorithm = Py.Ok up /\
    TrendFilter.IsDowntrend self algorithm = Py.Ok (negb up).
Proof.
  intros R Hs N. unfold TrendFilter.IsUptrend, TrendFilter.IsDowntrend, Py.getitem.
  rewrite R, Hs. cbn.
  exists (price >? Current (TrendFilter.sma self)). split; [ reflexivity | ].
  f_equal.
  destruct (price >? Current (TrendFilter.sma self)) eqn:Up;
    destruct (price <? Current (TrendFilter.sma self)) eqn:Down;
    try reflexivity; exfalso.
  - apply gt_true in Up. apply lt_true in Down.
    exact (Qlt_irrefl _ (Qlt_trans _ _ _ Up Down)).
  - apply gt_false in Up. apply lt_false in Down.
    apply N, Qle_antisym; assumption.
Qed.

End TrendFilterEdges.

Section TrendFilterExamples.
Import Lean.
Local Open Scope Q_scope.

(** A ready filter for IWM on an account that has no IWM security. *)
Lemma TrendFilter_needs_price_witness :
  let self :=
    {| TrendFilter.symbol := "IWM"; TrendFilter.sma := Probe.reading 20 |} in
  let algorithm := Scenario.algorithm 20 0 0 1000 10000 in
  TrendFilter.IsUptrend self algorithm = Py.Raise Py.KeyError /\
  TrendFilter.IsDowntrend self algorithm = Py.Raise Py.KeyError.
Proof.
  cbv zeta.
  destruct (TrendFilter_needs_price
              {| TrendFilter.symbol := "IWM";
                 TrendFilter.sma := Probe.reading 20 |}
              (Scenario.algorithm 20 0 0 1000 10000)) as [K _].
  - reflexivity.
  - apply K. reflexivity.
Defined.

(** Price 22 against a ready moving average of 20: an uptrend, and no
    downtrend. *)
Lemma TrendFilter_one_trend_witness :
  exists up,
    TrendFilter.IsUptrend
      {| TrendFilter.symbol := "SPY"; TrendFilter.sma := Probe.reading 20 |}
      (Scenario.algorithm 22 0 0 1000 10000) = Py.Ok up /\
    TrendFilter.IsDowntrend
      {| TrendFilter.symbol := "SPY"; TrendFilter.sma := Probe.reading 20 |}
      (Scenario.algorithm 22 0 0 1000 10000) = Py.Ok (negb up).
Proof.
  apply (TrendFilter_one_trend
           {| TrendFilter.symbol := "SPY";
              TrendFilter.sma := Probe.reading 20 |}
           (Scenario.algorithm 22 0 0 1000 10000) 22).
  - reflexivity.
  - reflexivity.
  - vm_compute. discriminate.
Defined.

End TrendFilterExamples.

Section VolatilityWindow.
Import Lean Rules HistoricalVolatility.

Lemma rw_Add_count {A} (w : RollingWindow A) (x : A) :
  rw_Count w = Nat.min (Samples w) (Size w) ->
  rw_Count (rw_Add w x) = Nat.min (Samples (rw_Add w x)) (Size (rw_Add w x)).
Proof.
  unfold rw_Count, rw_Add. cbn [items Samples Size]. intros E.
  rewrite length_firstn. cbn [length]. rewrite E. lia.
Qed.

Lemma Update_count (self : HistoricalVolatility.t) (data : Slice) :
  rw_Count (returns self)
    = Nat.min (Samples (returns self)) (Size (returns self)) ->
  rw_Count (returns (Update self data))
    = Nat.min (Samples (returns (Update self data)))
        (Size (returns (Update self data))).
Proof.
  intros E. unfold Update.
  destruct (data !! symbol self) as [[bar | ] | ]; try exact E.
  destruct (items (returns self)); apply rw_Add_count, E.
Qed.

Lemma count_of_run (datas : list Slice) (self : HistoricalVolatility.t) :
  rw_Count (returns self)
    = Nat.min (Samples (returns self)) (Size (returns self)) ->
  let self' := fold_left Update datas self in
  rw_Count (returns self')
    = Nat.min (Samples (returns self')) (Size (returns self')).
Proof.
  revert self. induction datas as [ | data datas IH]; intros self E; simpl.
  - exact E.
  - apply IH, Update_count, E.
Qed.

(** X12.  The estimator keeps the most recent returns only: after slices
    that all carry a bar for the symbol, the window of an estimator of
    period [period] holds [min n period] returns, [n] being the number
    of slices. *)
Theorem HistoricalVolatility_window_count (s : string) (period : nat)
    (datas : list Slice) :
  Forall (fun data => exists bar, data !! s = Some (Some bar)) datas ->
  rw_Count (returns (fold_left Update datas (init s period)))
  = Nat.min (length datas) period.
Proof.
  intros A.
  rewrite (count_of_run datas (init s period)) by reflexivity.
  rewrite Size_of_run, (Samples_of_run datas (init s period) A). simpl.
  rewrite Nat.add_0_r. reflexivity.
Qed.

Lemma two_bars :
  Forall (fun data : Slice => exists bar, data !! "SPY"%string = Some (Some bar))
    [one_bar "SPY" 1 100%Q; one_bar "SPY" 2 110%Q; one_bar "SPY" 3 105%Q].
Proof.
  repeat constructor; eexists; apply lookup_singleton_eq.
Defined.

(** Three bars into an estimator of period 2: two returns are kept. *)
Lemma HistoricalVolatility_window_count_witness :
  rw_Count (returns
    (fold_left Update
       [one_bar "SPY" 1 100%Q; one_bar "SPY" 2 110%Q; one_bar "SPY" 3 105%Q]
       (init "SPY" 2))) = 2%nat.
Proof.
  exact (HistoricalVolatility_window_count "SPY" 2 _ two_bars).
Defined.

(** The same three bars: the estimator of period 2 is ready, and its
    volatility is zero. *)
Lemma GetVolatility_ready_witness :
  GetVolatility
    (fold_left Update
       [one_bar "SPY" 1 100%Q; one_bar "SPY" 2 110%Q; one_bar "SPY" 3 105%Q]
       (init "SPY" 2)) = Some 0%R.
Proof.
  exact (GetVolatility_ready "SPY" 2 _ two_bars).
Defined.

End VolatilityWindow.

(* ------------------------------------------------------------------ *)
(** ** main.py: the universe selection                                  *)
(* ------------------------------------------------------------------ *)

Section Selection.
Import Lean Engine VolatilityArbitrage.
Context {B S T : Type} `{!BollingerBands B, !Indicator S, !Indicator T}.
Context `{!Factory B S T, !Broker}.
Local Open Scope Q_scope.

Lemma insert_descending_permutation {A} (key : A -> Q) (x : A) (xs : list A) :
  Permutation (insert_descending key x xs) (x :: xs).
Proof.
  induction xs as [ | y rest IH]; simpl; [ reflexivity | ].
  destruct (key y <=? key x); [ reflexivity | ].
  rewrite IH. apply perm_swap.
Qed.

Lemma sorted_descending_permutation {A} (key : A -> Q) (xs : list A) :
  Permutation (sorted_descending key xs) xs.
Proof.
  induction xs as [ | x rest IH]; simpl; [ reflexivity | ].
  rewrite insert_descending_permutation, IH. reflexivity.
Qed.

Lemma insert_descending_sorted {A} (key : A -> Q) (x : A) (xs : list A) :
  StronglySorted (fun a b => key b <= key a) xs ->
  StronglySorted (fun a b => key b <= key a) (insert_descending key x xs).
Proof.
  induction 1 as [ | y rest Hrest IH Hy]; simpl.
  - repeat constructor.
  - destruct (key y <=? key x) eqn:C.
    + apply le_true in C.
      constructor; [ constructor; assumption | ].
      constructor; [ exact C | ].
      eapply Forall_impl; [ exact Hy | ]. simpl.
      intros z Hz. exact (Qle_trans _ _ _ Hz C).
    + apply le_false in C.
      constructor; [ exact IH | ].
      rewrite insert_descending_permutation.
      constructor; [ apply Qlt_le_weak, C | exact Hy ].
Qed.

Lemma sorted_descending_sorted {A} (key : A -> Q) (xs : list A) :
  StronglySorted (fun a b => key b <= key a) (sorted_descending key xs).
Proof.
  induction xs as [ | x rest IH]; simpl.
  - constructor.
  - apply insert_descending_sorted, IH.
Qed.

Lemma liquid_true (x : Coarse.t) :
  liquid x = true <->
  Coarse.Price x > 20 /\ Coarse.DollarVolume x > 10000000.
Proof.
  unfold liquid. rewrite andb_true_iff, !gt_true. reflexivity.
Qed.

(** X13.  The selection is at most 100 equity symbols followed by the
    crypto symbols, whatever the coarse list: the equities are as many
    as the entries with a price above 20 and a dollar volume above
    10,000,000, capped at 100, and the crypto symbols are always there,
    in their order, at the end. *)
Theorem CoarseSelectionFunction_shape (self : VolatilityArbitrage.t B S T)
    (coarse : list Coarse.t) :
  exists selected,
    CoarseSelectionFunction self coarse = selected ++ crypto_symbols self /\
    length selected = Nat.min 100 (length (List.filter liquid coarse)).
Proof.
  unfold CoarseSelectionFunction. eexists. split; [ reflexivity | ].
  rewrite length_map, length_firstn.
  rewrite (Permutation_length (sorted_descending_permutation _ _)).
  reflexivity.
Qed.

(** X14.  Every symbol of the selection is a crypto symbol or the symbol
    of a coarse entry whose price is above 20 and whose dollar volume is
    above 10,000,000. *)
Theorem CoarseSelectionFunction_liquid (self : VolatilityArbitrage.t B S T)
    (coarse : list Coarse.t) (s : string) :
  In s (CoarseSelectionFunction self coarse) ->
  In s (crypto_symbols self) \/
  exists x,
    In x coarse /\ Coarse.Symbol x = s /\
    Coarse.Price x > 20 /\ Coarse.DollarVolume x > 10000000.
Proof.
  unfold CoarseSelectionFunction. rewrite in_app_iff.
  intros [I | I]; [ right | left; exact I ].
  apply in_map_iff in I. destruct I as (x & E & I).
  exists x.
  assert (I' : In x (List.filter liquid coarse)).
  { apply (Permutation_in _ (sorted_descending_permutation Coarse.DollarVolume _)).
    revert I. generalize (sorted_descending Coarse.DollarVolume
                            (List.filter liquid coarse)).
    intros l. generalize 100%nat. intros n. revert l.
    induction n as [ | n IH]; intros [ | y l]; simpl; try tauto.
    intros [-> | I]; auto. }
  apply filter_In in I'. destruct I' as (Ic & L).
  apply liquid_true in L. tauto.
Qed.

(** X15.  The equities selected are the top of the ranking by dollar
    volume: they and the entries left out make up the entries that pass
    the filter, the selected ones are in descending order of dollar
    volume, and no entry left out has a larger dollar volume than a
    selected one. *)
Theorem CoarseSelectionFunction_top (self : VolatilityArbitrage.t B S T)
    (coarse : list Coarse.t) :
  exists chosen others,
    CoarseSelectionFunction self coarse
      = map Coarse.Symbol chosen ++ crypto_symbols self /\
    Permutation (chosen ++ others) (List.filter liquid coarse) /\
    StronglySorted
      (fun a b => Coarse.DollarVolume b <= Coarse.DollarVolume a) chosen /\
    forall x y, In x chosen -> In y others ->
      Coarse.DollarVolume y <= Coarse.DollarVolume x.
Proof.
  pose (ranking := sorted_descending Coarse.DollarVolume
                     (List.filter liquid coarse)).
  exists (firstn 100 ranking), (skipn 100 ranking).
  assert (Sr : StronglySorted
                 (fun a b => Coarse.DollarVolume b <= Coarse.DollarVolume a)
                 (firstn 100 ranking ++ skipn 100 ranking)).
  { rewrite firstn_skipn. apply sorted_descending_sorted. }
  rewrite StronglySorted_app in Sr.
  destruct Sr as (Hcross & Hchosen & Hothers).
  split; [ reflexivity | ]. split; [ | split ].
  - rewrite firstn_skipn. apply sorted_descending_permutation.
  - exact Hchosen.
  - intros x y Ix Iy. apply Hcross; apply list_elem_of_In; assumption.
Qed.

(** X16.  When at most 100 entries pass the filter, none of them is left
    out: the symbol of every coarse entry with a price above 20 and a
    dollar volume above 10,000,000 is in the selection. *)
Theorem CoarseSelectionFunction_all (self : VolatilityArbitrage.t B S T)
    (coarse : list Coarse.t) (x : Coarse.t) :
  (length (List.filter liquid coarse) <= 100)%nat ->
  In x coarse ->
  Coarse.Price x > 20 ->
  Coarse.DollarVolume x > 10000000 ->
  In (Coarse.Symbol x) (CoarseSelectionFunction self coarse).
Proof.
  intros Hlen Ix Hp Hv. unfold CoarseSelectionFunction.
  apply in_app_iff. left. apply in_map.
  rewrite firstn_all2.
  - apply (Permutation_in _
             (Permutation_sym (sorted_descending_permutation _ _))).
    apply filter_In. split; [ exact Ix | ].
    apply liquid_true. auto.
  - rewrite (Permutation_length (sorted_descending_permutation _ _)).
    exact Hlen.
Qed.

End Selection.

(* ------------------------------------------------------------------ *)
(** ** main.py: the tracked symbols                                     *)
(* ------------------------------------------------------------------ *)

Section Dict.
Context {V : Type}.
Implicit Types (d : Dict.t V) (k : string) (v : V).

Lemma get_set_same d k v : Dict.get (Dict.set d k v) k = Some v.
Proof.
  induction d as [ | [k' v'] d IH]; simpl.
  - rewrite String.eqb_refl. reflexivity.
  - destruct (String.eqb k' k) eqn:E; simpl; rewrite E; auto.
Qed.

Lemma get_set_other d k v k' :
  k <> k' -> Dict.get (Dict.set d k v) k' = Dict.get d k'.
Proof.
  intros N. induction d as [ | [k0 v0] d IH]; simpl.
  - apply String.eqb_neq in N. rewrite N. reflexivity.
  - destruct (String.eqb k0 k) eqn:E; simpl.
    + apply String.eqb_eq in E. subst k0.
      apply String.eqb_neq in N. rewrite N. reflexivity.
    + rewrite IH. reflexivity.
Qed.

Lemma get_del_same d k : Dict.get (Dict.del d k) k = None.
Proof.
  unfold Dict.del. induction d as [ | [k' v'] d IH]; simpl; [ reflexivity | ].
  destruct (String.eqb k' k) eqn:E; simpl; [ exact IH | ].
  rewrite E. exact IH.
Qed.

Lemma get_del_other d k k' :
  k <> k' -> Dict.get (Dict.del d k) k' = Dict.get d k'.
Proof.
  intros N. unfold Dict.del.
  induction d as [ | [k0 v0] d IH]; simpl; [ reflexivity | ].
  destruct (String.eqb k0 k) eqn:E; simpl.
  - apply String.eqb_eq in E. subst k0.
    apply String.eqb_neq in N. rewrite N. exact IH.
  - rewrite IH. reflexivity.
Qed.

Lemma get_None_keys d k : Dict.get d k = None <-> ~ In k (Dict.keys d).
Proof.
  induction d as [ | [k' v'] d IH]; simpl; [ tauto | ].
  destruct (String.eqb k' k) eqn:E.
  - apply String.eqb_eq in E. split; [ discriminate | tauto ].
  - apply String.eqb_neq in E. rewrite IH. tauto.
Qed.

Lemma get_In d k v : Dict.get d k = Some v -> In (k, v) d.
Proof.
  induction d as [ | [k' v'] d IH]; simpl; [ discriminate | ].
  destruct (String.eqb k' k) eqn:E.
  - apply String.eqb_eq in E. intros [= ->]. subst. auto.
  - auto.
Qed.

Lemma keys_set_new d k v :
  Dict.get d k = None -> Dict.set d k v = d ++ [(k, v)].
Proof.
  induction d as [ | [k' v'] d IH]; simpl; [ reflexivity | ].
  destruct (String.eqb k' k); [ discriminate | ].
  intros E. rewrite IH by exact E. reflexivity.
Qed.

Lemma keys_del_NoDup d k :
  NoDup (Dict.keys d) -> NoDup (Dict.keys (Dict.del d k)).
Proof.
  unfold Dict.del, Dict.keys.
  induction d as [ | [k' v'] d IH]; simpl; [ auto | ].
  intros N. apply NoDup_cons in N. destruct N as (Nk & N).
  destruct (String.eqb k' k); simpl; [ auto | ].
  apply NoDup_cons. split; [ | auto ].
  intros I. apply Nk.
  apply list_elem_of_In. apply list_elem_of_In, in_map_iff in I.
  destruct I as ([k0 v0] & E & I). simpl in E. subst k0.
  apply filter_In in I. destruct I as (I & _).
  apply in_map_iff. exists (k', v0). auto.
Qed.

End Dict.

Section Tracking.
Import Lean Engine VolatilityArbitrage.
Context {B S T : Type} `{!BollingerBands B, !Indicator S, !Indicator T}.
Context `{!Factory B S T, !Broker}.
Implicit Types (d : Dict.t (SymbolData B S T)) (s : string).

Lemma get_add_same d s :
  Dict.get (add_security d s) s =
    match Dict.get d s with
    | Some v => Some v
    | None => Some (new_symbol_data s)
    end.
Proof.
  unfold add_security, Dict.contains.
  destruct (Dict.get d s) eqn:E; simpl; [ exact E | apply get_set_same ].
Qed.

Lemma get_add_other d s s' :
  s <> s' -> Dict.get (add_security d s) s' = Dict.get d s'.
Proof.
  intros N. unfold add_security.
  destruct (negb _); [ apply get_set_other, N | reflexivity ].
Qed.

Lemma get_remove_same d s : Dict.get (remove_security d s) s = None.
Proof.
  unfold remove_security, Dict.contains.
  destruct (Dict.get d s) eqn:E; [ apply get_del_same | exact E ].
Qed.

Lemma get_remove_other d s s' :
  s <> s' -> Dict.get (remove_security d s) s' = Dict.get d s'.
Proof.
  intros N. unfold remove_security.
  destruct (Dict.contains d s); [ apply get_del_other, N | reflexivity ].
Qed.

Lemma get_added_known (added : list string) d s v :
  Dict.get d s = Some v ->
  Dict.get (fold_left add_security added d) s = Some v.
Proof.
  revert d. induction added as [ | a added IH]; intros d E; simpl; [ exact E | ].
  apply IH. destruct (string_dec a s) as [-> | N].
  - rewrite get_add_same, E. reflexivity.
  - rewrite get_add_other by exact N. exact E.
Qed.

Lemma get_added_new (added : list string) d s :
  Dict.get d s = None -> In s added ->
  Dict.get (fold_left add_security added d) s = Some (new_symbol_data s).
Proof.
  revert d. induction added as [ | a added IH]; intros d E I; simpl;
    [ destruct I | ].
  destruct (string_dec a s) as [-> | N].
  - apply get_added_known. rewrite get_add_same, E. reflexivity.
  - apply IH.
    + rewrite get_add_other by exact N. exact E.
    + destruct I as [-> | I]; [ contradiction | exact I ].
Qed.

Lemma get_added_absent (added : list string) d s :
  Dict.get d s = None -> ~ In s added ->
  Dict.get (fold_left add_security added d) s = None.
Proof.
  revert d. induction added as [ | a added IH]; intros d E I; simpl;
    [ exact E | ].
  apply IH.
  - rewrite get_add_other; [ exact E | ]. intros ->. apply I. left. reflexivity.
  - intros I'. apply I. right. exact I'.
Qed.

Lemma get_removed_gone (removed : list string) d s :
  Dict.get d s = None \/ In s removed ->
  Dict.get (fold_left remove_security removed d) s = None.
Proof.
  revert d. induction removed as [ | r removed IH]; intros d G; simpl.
  - destruct G as [E | []]. exact E.
  - apply IH. destruct (string_dec r s) as [-> | N].
    + left. apply get_remove_same.
    + destruct G as [E | [-> | I]].
      * left. rewrite get_remove_other by exact N. exact E.
      * contradiction.
      * right. exact I.
Qed.

Lemma get_removed_kept (removed : list string) d s :
  ~ In s removed ->
  Dict.get (fold_left remove_security removed d) s = Dict.get d s.
Proof.
  revert d. induction removed as [ | r removed IH]; intros d I; simpl;
    [ reflexivity | ].
  rewrite IH.
  - apply get_remove_other. intros ->. apply I. left. reflexivity.
  - intros I'. apply I. right. exact I'.
Qed.

(** X17.  Removal wins: a symbol among the removed securities is not
    tracked after [OnSecuritiesChanged], also when the same change adds
    it. *)
Theorem OnSecuritiesChanged_removed (self : VolatilityArbitrage.t B S T)
    (changes : SecurityChanges) s :
  In s (RemovedSecurities changes) ->
  Dict.get (symbol_data (OnSecuritiesChanged self changes)) s = None.
Proof.
  intros I. unfold OnSecuritiesChanged. simpl.
  apply get_removed_gone. right. exact I.
Qed.

(** X18.  A tracked symbol that is not removed keeps its indicators and
    its strategy as they are, also when the change adds it again: it is
    not initialised a second time. *)
Theorem OnSecuritiesChanged_keeps_state (self : VolatilityArbitrage.t B S T)
    (changes : SecurityChanges) s (data_set : SymbolData B S T) :
  Dict.get (symbol_data self) s = Some data_set ->
  ~ In s (RemovedSecurities changes) ->
  Dict.get (symbol_data (OnSecuritiesChanged self changes)) s = Some data_set.
Proof.
  intros E I. unfold OnSecuritiesChanged. simpl.
  rewrite get_removed_kept by exact I.
  apply get_added_known, E.
Qed.

(** X19.  A symbol that was not tracked, is added and is not removed gets
    new indicators (periods 20, 14, 20 and 50) and a strategy with the
    default parameters. *)
Theorem OnSecuritiesChanged_adds_fresh (self : VolatilityArbitrage.t B S T)
    (changes : SecurityChanges) s :
  Dict.get (symbol_data self) s = None ->
  In s (AddedSecurities changes) ->
  ~ In s (RemovedSecurities changes) ->
  Dict.get (symbol_data (OnSecuritiesChanged self changes)) s
  = Some (new_symbol_data s).
Proof.
  intros E Ia Ir. unfold OnSecuritiesChanged. simpl.
  rewrite get_removed_kept by exact Ir.
  apply get_added_new; assumption.
Qed.

Lemma new_symbol_data_keyed s : keyed s (new_symbol_data s).
Proof. repeat split. Qed.

Lemma add_security_well_keyed d s :
  well_keyed d -> well_keyed (add_security d s).
Proof.
  intros (N & K). unfold add_security, Dict.contains.
  destruct (Dict.get d s) eqn:E; simpl; [ split; assumption | ].
  rewrite keys_set_new by exact E. split.
  - unfold Dict.keys. rewrite map_app. simpl.
    apply NoDup_app. split; [ exact N | ]. split.
    + intros k Ik [-> | []]%list_elem_of_In.
      apply get_None_keys in E. apply E, list_elem_of_In, Ik.
    + apply NoDup_singleton.
  - apply Forall_app. split; [ exact K | ].
    constructor; [ apply new_symbol_data_keyed | constructor ].
Qed.

Lemma remove_security_well_keyed d s :
  well_keyed d -> well_keyed (remove_security d s).
Proof.
  intros (N & K). unfold remove_security.
  destruct (Dict.contains d s); [ | split; assumption ].
  split; [ apply keys_del_NoDup, N | ].
  unfold Dict.del. apply Forall_forall. intros entry I.
  apply list_elem_of_In, filter_In in I. destruct I as (I & _).
  rewrite Forall_forall in K. apply K, list_elem_of_In, I.
Qed.

(** X21.  [OnSecuritiesChanged] keeps [symbol_data] well keyed: one entry
    per symbol, and under every symbol the indicators and the strategy
    built for it.  It holds after [Initialize]. *)
Theorem OnSecuritiesChanged_well_keyed (self : VolatilityArbitrage.t B S T)
    (changes : SecurityChanges) :
  well_keyed (symbol_data self) ->
  well_keyed (symbol_data (OnSecuritiesChanged self changes)).
Proof.
  intros W. unfold OnSecuritiesChanged. simpl.
  assert (Wa : well_keyed (fold_left add_security (AddedSecurities changes)
                             (symbol_data self))).
  { revert W. generalize (symbol_data self).
    induction (AddedSecurities changes) as [ | a added IH]; intros d W; simpl;
      [ exact W | ].
    apply IH, add_security_well_keyed, W. }
  revert Wa. generalize (fold_left add_security (AddedSecurities changes)
                           (symbol_data self)).
  induction (RemovedSecurities changes) as [ | r removed IH]; intros d W'; simpl;
    [ exact W' | ].
  apply IH, remove_security_well_keyed, W'.
Qed.

Lemma Initialize_well_keyed :
  well_keyed (symbol_data (Initialize (B := B) (S := S) (T := T))).
Proof. split; constructor. Qed.

End Tracking.

(* ------------------------------------------------------------------ *)
(** ** main.py: a slice of data                                         *)
(* ------------------------------------------------------------------ *)

Section OnData.
Import Lean Engine VolatilityArbitrage.
Context {B S T : Type} `{!BollingerBands B, !Indicator S, !Indicator T}.
Context `{!Factory B S T, !Broker}.
Implicit Types (items : Dict.t (SymbolData B S T)) (data : Slice)
  (algorithm : QCAlgorithm).

Lemma orders_app (cs cs' : list Call) :
  AssetArbitrageStrategy.orders (cs ++ cs')
  = AssetArbitrageStrategy.orders cs ++ AssetArbitrageStrategy.orders cs'.
Proof. unfold AssetArbitrageStrategy.orders. apply List.filter_app. Qed.

Lemma Execute_at_most_two_orders (self : AssetArbitrageStrategy.t)
    (indicators : AssetArbitrageStrategy.Indicators B S T) algorithm :
  (length (AssetArbitrageStrategy.orders
             (Py.calls (AssetArbitrageStrategy.Execute self indicators algorithm)))
   <= 2)%nat.
Proof.
  destruct (Execute_order_cases self indicators algorithm)
    as [E | [E | [E | [E | (E & _)]]]]; rewrite E; simpl; lia.
Qed.

(** Without a bar for their symbol the four indicators stay as they
    are. *)
Lemma update_indicators_no_bar (key : string) (data_set : SymbolData B S T) data :
  keyed key data_set ->
  Rules.no_bar data key ->
  update_indicators (indicators data_set) data = indicators data_set.
Proof.
  intros (_ & Kb & Kr & Kv & Kt) Hno. unfold update_indicators.
  unfold CustomBollingerBands.Update, RSIIndicator.Update,
    HistoricalVolatility.Update, TrendFilter.Update.
  rewrite Kb, Kr, Kv, Kt.
  destruct (indicators data_set).
  destruct Hno as [-> | ->]; reflexivity.
Qed.

Lemma update_indicators_keyed (key : string) (data_set : SymbolData B S T) data :
  keyed key data_set ->
  keyed key {| indicators := update_indicators (indicators data_set) data;
               strategy := strategy data_set |}.
Proof.
  intros (Ks & Kb & Kr & Kv & Kt). unfold keyed, update_indicators. simpl.
  split; [ exact Ks | ].
  split; [ | split; [ | split ] ].
  - unfold CustomBollingerBands.Update.
    destruct (data !! _) as [[bar | ] | ]; exact Kb.
  - unfold RSIIndicator.Update.
    destruct (data !! _) as [[bar | ] | ]; exact Kr.
  - rewrite Update_symbol. exact Kv.
  - unfold TrendFilter.Update.
    destruct (data !! _) as [[bar | ] | ]; exact Kt.
Qed.

Lemma OnData_loop_keys items data algorithm :
  Dict.keys (entries (OnData_loop items data algorithm)) = Dict.keys items.
Proof.
  revert algorithm. induction items as [ | [symbol data_set] rest IH];
    intros algorithm; simpl; [ reflexivity | ].
  destruct (data !! symbol).
  - destruct (AssetArbitrageStrategy.Execute _ _ _) as [calls [[] | e]]; simpl.
    + rewrite IH. reflexivity.
    + reflexivity.
  - simpl. rewrite IH. reflexivity.
Qed.

Lemma OnData_loop_idle items data algorithm :
  (forall k, In k (Dict.keys items) -> data !! k = None) ->
  OnData_loop items data algorithm =
    {| entries := items; account := algorithm; made := [];
       result := Py.Ok tt |}.
Proof.
  revert algorithm. induction items as [ | [symbol data_set] rest IH];
    intros algorithm Hno; simpl; [ reflexivity | ].
  rewrite (Hno symbol) by (left; reflexivity).
  rewrite IH; [ reflexivity | ].
  intros k I. apply Hno. right. exact I.
Qed.

Lemma OnData_loop_no_bar items data algorithm (k : string) :
  Forall (fun entry => keyed (fst entry) (snd entry)) items ->
  Rules.no_bar data k ->
  Dict.get (entries (OnData_loop items data algorithm)) k = Dict.get items k.
Proof.
  intros K Hno. revert algorithm.
  induction K as [ | [symbol data_set] rest Kh Krest IH]; intros algorithm;
    simpl; [ reflexivity | ].
  simpl in Kh.
  destruct (data !! symbol) as [entry | ] eqn:E.
  - destruct (AssetArbitrageStrategy.Execute _ _ _) as [calls [[] | e]]; simpl.
    + destruct (String.eqb symbol k) eqn:Ek; [ | apply IH ].
      apply String.eqb_eq in Ek. subst k.
      rewrite (update_indicators_no_bar symbol data_set data Kh Hno).
      destruct data_set. reflexivity.
    + destruct (String.eqb symbol k) eqn:Ek; [ | reflexivity ].
      apply String.eqb_eq in Ek. subst k.
      rewrite (update_indicators_no_bar symbol data_set data Kh Hno).
      destruct data_set. reflexivity.
  - simpl. destruct (String.eqb symbol k); [ reflexivity | apply IH ].
Qed.

Lemma OnData_loop_targets items data algorithm (c : Call) :
  Forall (fun entry => keyed (fst entry) (snd entry)) items ->
  In c (made (OnData_loop items data algorithm)) ->
  AssetArbitrageStrategy.is_order c = true ->
  exists k,
    target c = Some k /\ In k (Dict.keys items) /\ data !! k <> None.
Proof.
  intros K. revert algorithm.
  induction K as [ | [symbol data_set] rest Kh Krest IH]; intros algorithm;
    simpl; [ tauto | ].
  simpl in Kh. destruct Kh as (Ks & _).
  assert (Here : forall (indicators : AssetArbitrageStrategy.Indicators B S T)
                   algorithm' calls outcome,
            AssetArbitrageStrategy.Execute (strategy data_set) indicators
              algorithm' = (calls, outcome) ->
            In c calls ->
            AssetArbitrageStrategy.is_order c = true ->
            data !! symbol <> None ->
            exists k, target c = Some k /\
                      (symbol = k \/ In k (Dict.keys rest)) /\
                      data !! k <> None).
  { intros indicators algorithm' calls outcome X I O Hd. exists symbol.
    assert (I' : In c (Py.calls (AssetArbitrageStrategy.Execute
                                   (strategy data_set) indicators algorithm')))
      by (rewrite X; exact I).
    destruct (Execute_order_kinds _ _ _ _ I' O) as [-> | [-> | ->]];
      simpl; rewrite Ks; auto. }
  destruct (data !! symbol) as [entry | ] eqn:E.
  - destruct (AssetArbitrageStrategy.Execute _ _ _) as [calls [[] | e]] eqn:X;
      simpl; intros I O.
    + apply in_app_iff in I. destruct I as [I | I].
      * apply (Here _ _ _ _ X I O). discriminate.
      * destruct (IH _ I O) as (k & Ht & Ik & Hd). exists k. auto.
    + apply (Here _ _ _ _ X I O). discriminate.
  - simpl. intros I O.
    destruct (IH _ I O) as (k & Ht & Ik & Hd). exists k. auto.
Qed.

Lemma OnData_loop_order_bound items data algorithm :
  (length (AssetArbitrageStrategy.orders (made (OnData_loop items data algorithm)))
   <= 2 * length (List.filter
                    (fun entry =>
                       match data !! fst entry with
                       | Some _ => true
                       | None => false
                       end) items))%nat.
Proof.
  revert algorithm. induction items as [ | [symbol data_set] rest IH];
    intros algorithm; simpl; [ lia | ].
  destruct (data !! symbol) as [entry | ] eqn:E.
  - pose proof (Execute_at_most_two_orders (strategy data_set)
                  (execute_argument
                     (update_indicators (indicators data_set) data))
                  algorithm) as Two.
    destruct (AssetArbitrageStrategy.Execute _ _ _) as [calls [[] | e]];
      simpl in *.
    + rewrite orders_app, length_app.
      specialize (IH (fold_left respond calls algorithm)). lia.
    + lia.
  - simpl. apply IH.
Qed.

Lemma OnData_loop_well_keyed items data algorithm :
  well_keyed items -> well_keyed (entries (OnData_loop items data algorithm)).
Proof.
  intros (N & K). split.
  - rewrite OnData_loop_keys. exact N.
  - clear N. revert algorithm.
    induction K as [ | [symbol data_set] rest Kh Krest IH]; intros algorithm;
      simpl; [ constructor | ].
    simpl in Kh.
    destruct (data !! symbol).
    + destruct (AssetArbitrageStrategy.Execute _ _ _) as [calls [[] | e]];
        simpl; constructor; simpl.
      * apply update_indicators_keyed, Kh.
      * apply IH.
      * apply update_indicators_keyed, Kh.
      * exact Krest.
    + simpl. constructor; [ exact Kh | apply IH ].
Qed.

(** X22.  [OnData] never adds, drops or reorders a tracked symbol: the
    keys of [symbol_data] are the same after it, in the same order, also
    when an evaluation raises. *)
Theorem OnData_keeps_symbols (self : VolatilityArbitrage.t B S T)
    (IsWarmingUp : bool) algorithm data :
  Dict.keys (symbol_data (fst (OnData self IsWarmingUp algorithm data)))
  = Dict.keys (symbol_data self).
Proof.
  unfold OnData. destruct IsWarmingUp; simpl; [ reflexivity | ].
  apply OnData_loop_keys.
Qed.

(** X23.  During warm-up, and when no tracked symbol is a key of the
    slice, [OnData] does nothing: no indicator is updated, no call is
    made, and the account is as it was. *)
Theorem OnData_idle (self : VolatilityArbitrage.t B S T)
    (IsWarmingUp : bool) algorithm data :
  IsWarmingUp = true \/
  (forall k, In k (Dict.keys (symbol_data self)) -> data !! k = None) ->
  OnData self IsWarmingUp algorithm data =
    (self,
     {| entries := symbol_data self; account := algorithm; made := [];
        result := Py.Ok tt |}).
Proof.
  intros [-> | Hno]; [ reflexivity | ].
  unfold OnData. destruct IsWarmingUp; [ reflexivity | ].
  rewrite OnData_loop_idle by exact Hno. destruct self. reflexivity.
Qed.

(** X24.  With [symbol_data] well keyed, a tracked symbol for which the
    slice has no bar (no key, or the value [None]) keeps its indicators
    and its strategy unchanged through [OnData]. *)
Theorem OnData_no_bar (self : VolatilityArbitrage.t B S T)
    (IsWarmingUp : bool) algorithm data (k : string) :
  well_keyed (symbol_data self) ->
  Rules.no_bar data k ->
  Dict.get (symbol_data (fst (OnData self IsWarmingUp algorithm data))) k
  = Dict.get (symbol_data self) k.
Proof.
  intros (_ & K) Hno. unfold OnData.
  destruct IsWarmingUp; simpl; [ reflexivity | ].
  apply OnData_loop_no_bar; assumption.
Qed.

(** X25.  With [symbol_data] well keyed, every position-changing call of
    [OnData] is for a tracked symbol that is a key of the slice. *)
Theorem OnData_orders_tracked (self : VolatilityArbitrage.t B S T)
    (IsWarmingUp : bool) algorithm data (c : Call) :
  well_keyed (symbol_data self) ->
  In c (made (snd (OnData self IsWarmingUp algorithm data))) ->
  AssetArbitrageStrategy.is_order c = true ->
  exists k,
    target c = Some k /\
    In k (Dict.keys (symbol_data self)) /\
    data !! k <> None.
Proof.
  intros (_ & K). unfold OnData.
  destruct IsWarmingUp; simpl; [ tauto | ].
  apply OnData_loop_targets, K.
Qed.

(** In all, [OnData] makes at most twice as many position-changing calls
    as there are tracked symbols that are keys of the slice. *)
Theorem OnData_order_bound (self : VolatilityArbitrage.t B S T)
    (IsWarmingUp : bool) algorithm data :
  (length (AssetArbitrageStrategy.orders
             (made (snd (OnData self IsWarmingUp algorithm data))))
   <= 2 * length (List.filter
                    (fun entry =>
                       match data !! fst entry with
                       | Some _ => true
                       | None => false
                       end) (symbol_data self)))%nat.
Proof.
  unfold OnData. destruct IsWarmingUp; simpl; [ lia | ].
  apply OnData_loop_order_bound.
Qed.

(** X27.  [OnData] keeps [symbol_data] well keyed: the indicators it
    updates stay the indicators of their symbol. *)
Theorem OnData_well_keyed (self : VolatilityArbitrage.t B S T)
    (IsWarmingUp : bool) algorithm data :
  well_keyed (symbol_data self) ->
  well_keyed (symbol_data (fst (OnData self IsWarmingUp algorithm data))).
Proof.
  intros W. unfold OnData. destruct IsWarmingUp; simpl; [ exact W | ].
  apply OnData_loop_well_keyed, W.
Qed.

End OnData.

(* ------------------------------------------------------------------ *)
(** ** Concrete runs                                                    *)
(* ------------------------------------------------------------------ *)

Section Runs.
Import Lean Engine AssetArbitrageStrategy Rules.
Local Open Scope Q_scope.

Ltac evaluated :=
  vm_compute; first [ reflexivity | discriminate | tauto ].

(** Flat position, price 22, upper band 21, oscillator 75, price below
    its moving average 23: EnterShort(0.03). *)
Lemma Execute_short_entry_witness :
  Execute (init "SPY") (Scenario.indicators 19 20 21 75 23)
    (Scenario.algorithm 22 0 0 1000 10000)
  = ([SetHoldings "SPY" (- Py.float 0.03)], Py.Ok tt).
Proof.
  apply (Execute_short_entry (init "SPY") _ _ 22
           {| Quantity := 0; AveragePrice := 0; HoldingsValue := 0 * 22 |}
           (Py.div 1000 10000)).
  - repeat split; evaluated.
  - evaluated.
  - evaluated.
  - evaluated.
  - evaluated.
Defined.

(** A short position of 10 at average price 100, price 104, middle band
    100: the stop-loss liquidates, the exit rule adds nothing. *)
Lemma Execute_short_stop_loss_witness :
  Execute (init "SPY") (Scenario.indicators 80 100 130 50 23)
    (Scenario.algorithm 104 (-10) 100 1000 10000)
  = ([Debug (StopLossShort "SPY" 104); Liquidate "SPY"], Py.Ok tt).
Proof.
  assert (G : passes_guards (init "SPY")
                (Scenario.indicators 80 100 130 50 23)
                (Scenario.algorithm 104 (-10) 100 1000 10000) 104
                {| Quantity := -10; AveragePrice := 100;
                   HoldingsValue := -10 * 104 |}
                (Py.div (-40) 10000))
    by (repeat split; evaluated).
  assert (C : short_stop_loss_hit (init "SPY")
                {| Quantity := -10; AveragePrice := 100;
                   HoldingsValue := -10 * 104 |} 104)
    by (split; evaluated).
  exact (Execute_short_stop_loss _ _ _ _ _ _ G C).
Defined.

(** A long position of 10 at average price 90, price 100, middle band
    95: one [Liquidate]. *)
Lemma Execute_middle_band_exit_witness :
  Execute (init "SPY") (Scenario.indicators 80 95 130 50 23)
    (Scenario.algorithm 100 10 90 1000 10000)
  = ([Liquidate "SPY"], Py.Ok tt).
Proof.
  apply (Execute_middle_band_exit (init "SPY") _ _ 100
           {| Quantity := 10; AveragePrice := 90; HoldingsValue := 10 * 100 |}
           (Py.div 2000 10000)).
  - repeat split; evaluated.
  - left. repeat split; evaluated.
Defined.

(** A long position of 10 at average price 100, price 97, middle band
    99: nothing is done. *)
Lemma Execute_holds_position_witness :
  Execute (init "SPY") (Scenario.indicators 80 99 130 50 23)
    (Scenario.algorithm 97 10 100 1000 10000)
  = ([], Py.Ok tt).
Proof.
  apply (Execute_holds_position (init "SPY") _ _ 97
           {| Quantity := 10; AveragePrice := 100; HoldingsValue := 10 * 97 |}
           (Py.div 1970 10000)).
  - repeat split; evaluated.
  - left. repeat split; evaluated.
Defined.

(** The flat position of the long-entry scenario: no [Liquidate]. *)
Lemma Execute_follows_position_witness :
  ~ In (Liquidate "SPY")
      (Py.calls (Execute (init "SPY") (Scenario.indicators 19 20 21 25 17)
                   (Scenario.algorithm 18 0 0 1000 10000))).
Proof.
  apply (proj2 (Execute_follows_position (init "SPY")
                  (Scenario.indicators 19 20 21 25 17)
                  (Scenario.algorithm 18 0 0 1000 10000)
                  {| Quantity := 0; AveragePrice := 0;
                     HoldingsValue := 0 * 18 |}
                  (@eq_refl _ _))).
  reflexivity.
Defined.

(** The long-entry scenario on an account whose total value is zero. *)
Lemma Execute_zero_total_witness :
  Execute (init "SPY") (Scenario.indicators 19 20 21 25 17)
    (Scenario.algorithm 18 0 0 0 0)
  = ([], Py.Raise Py.ZeroDivisionError).
Proof.
  apply (Execute_zero_total (init "SPY") _ _ 18
           {| Quantity := 0; AveragePrice := 0; HoldingsValue := 0 * 18 |});
    evaluated.
Defined.

(** A strategy for IWM on an account that has neither a security nor a
    holding for IWM. *)
Lemma Execute_missing_key_witness :
  Execute (init "IWM") (Scenario.indicators 19 20 21 25 17)
    (Scenario.algorithm 18 0 0 1000 10000)
  = ([], Py.Raise Py.KeyError).
Proof.
  apply Execute_missing_key; [ reflexivity | reflexivity | ].
  left. reflexivity.
Defined.

(** The long-entry scenario completes. *)
Lemma Execute_completes_witness :
  snd (Execute (init "SPY") (Scenario.indicators 19 20 21 25 17)
         (Scenario.algorithm 18 0 0 1000 10000)) = Py.Ok tt.
Proof.
  apply (Execute_completes (init "SPY") _ _ 18
           {| Quantity := 0; AveragePrice := 0; HoldingsValue := 0 * 18 |}
           (Py.div 1000 10000)).
  - repeat split; evaluated.
  - reflexivity.
Defined.

End Runs.

Section MainRuns.
Import Lean Engine VolatilityArbitrage PaperEngine.
Local Open Scope Q_scope.

(** Of five entries three pass the filter; CCC has the largest dollar
    volume, and AAA stays before EEE, which has the same. *)
Example CoarseSelectionFunction_ranks :
  CoarseSelectionFunction Session.started Session.coarse
  = ["CCC"; "AAA"; "EEE"; "BTCUSD"; "ETHUSD"; "SOLUSD"]%string.
Proof. reflexivity. Qed.

(** CCC is selected: it is the symbol of a liquid entry. *)
Lemma CoarseSelectionFunction_liquid_witness :
  In "CCC"%string (crypto_symbols Session.started) \/
  exists x,
    In x Session.coarse /\ Coarse.Symbol x = "CCC"%string /\
    Coarse.Price x > 20 /\ Coarse.DollarVolume x > 10000000.
Proof.
  apply (CoarseSelectionFunction_liquid Session.started Session.coarse).
  vm_compute. tauto.
Defined.

(** EEE, the last of the three liquid entries, is selected. *)
Lemma CoarseSelectionFunction_all_witness :
  In "EEE"%string (CoarseSelectionFunction Session.started Session.coarse).
Proof.
  apply (CoarseSelectionFunction_all Session.started Session.coarse
           {| Coarse.Symbol := "EEE"; Coarse.Price := 40;
              Coarse.DollarVolume := 20000000 |}).
  - vm_compute. lia.
  - vm_compute. tauto.
  - reflexivity.
  - reflexivity.
Defined.

(** QQQ is added and removed by the same change. *)
Lemma OnSecuritiesChanged_removed_witness :
  Dict.get
    (symbol_data
       (OnSecuritiesChanged Session.started
          {| AddedSecurities := ["QQQ"]%string;
             RemovedSecurities := ["QQQ"]%string |})) "QQQ" = None.
Proof.
  apply OnSecuritiesChanged_removed. left. reflexivity.
Defined.

(** SPY, tracked with ready indicators, is added again while QQQ is
    removed: its entry is the one it had. *)
Lemma OnSecuritiesChanged_keeps_state_witness :
  Dict.get
    (symbol_data
       (OnSecuritiesChanged Session.live
          {| AddedSecurities := ["SPY"; "IWM"]%string;
             RemovedSecurities := ["QQQ"]%string |})) "SPY"
  = Some Session.spy_ready.
Proof.
  apply OnSecuritiesChanged_keeps_state.
  - reflexivity.
  - simpl. intros [D | []]. discriminate.
Defined.

(** IWM, not tracked so far, is added by the same change. *)
Lemma OnSecuritiesChanged_adds_fresh_witness :
  Dict.get
    (symbol_data
       (OnSecuritiesChanged Session.live
          {| AddedSecurities := ["SPY"; "IWM"]%string;
             RemovedSecurities := ["QQQ"]%string |})) "IWM"
  = Some (new_symbol_data "IWM").
Proof.
  apply OnSecuritiesChanged_adds_fresh.
  - reflexivity.
  - simpl. tauto.
  - simpl. intros [D | []]. discriminate.
Defined.

(** The symbols added after [Initialize] are well keyed. *)
Lemma OnSecuritiesChanged_well_keyed_witness :
  well_keyed (symbol_data Session.started).
Proof.
  apply (OnSecuritiesChanged_well_keyed Initialize).
  apply Initialize_well_keyed.
Defined.

Lemma live_well_keyed : well_keyed (symbol_data Session.live).
Proof.
  split.
  - simpl. apply NoDup_cons. split.
    + intros I. apply list_elem_of_In in I. simpl in I.
      destruct I as [D | []]. discriminate.
    + apply NoDup_singleton.
  - repeat constructor.
Defined.

(** During warm-up the slice is ignored. *)
Lemma OnData_idle_witness :
  OnData Session.live true (Scenario.algorithm 18 0 0 1000 10000)
    Scenario.slice
  = (Session.live,
     {| entries := symbol_data Session.live;
        account := Scenario.algorithm 18 0 0 1000 10000;
        made := []; result := Py.Ok tt |}).
Proof.
  apply OnData_idle. left. reflexivity.
Defined.

(** The slice has the value [None] for QQQ: its entry is unchanged. *)
Lemma OnData_no_bar_witness :
  Dict.get
    (symbol_data
       (fst (OnData Session.live false
               (Scenario.algorithm 18 0 0 1000 10000) Scenario.slice))) "QQQ"
  = Dict.get (symbol_data Session.live) "QQQ".
Proof.
  apply OnData_no_bar.
  - exact live_well_keyed.
  - right. reflexivity.
Defined.

(** The one order of that run is for SPY, a key of the slice. *)
Lemma OnData_orders_tracked_witness :
  exists k,
    target (SetHoldings "SPY" (Py.float 0.05)) = Some k /\
    In k (Dict.keys (symbol_data Session.live)) /\
    Scenario.slice !! k <> None.
Proof.
  apply (OnData_orders_tracked Session.live false
           (Scenario.algorithm 18 0 0 1000 10000) Scenario.slice).
  - exact live_well_keyed.
  - vm_compute. left. reflexivity.
  - reflexivity.
Defined.

(** After that run [symbol_data] is still well keyed. *)
Lemma OnData_well_keyed_witness :
  well_keyed
    (symbol_data
       (fst (OnData Session.live false
               (Scenario.algorithm 18 0 0 1000 10000) Scenario.slice))).
Proof.
  apply OnData_well_keyed. exact live_well_keyed.
Defined.

(** That run: SPY's indicators receive the bar, the long entry is made,
    and QQQ, whose indicators are not ready, gets no call. *)
Example OnData_run :
  made (snd (OnData Session.live false
               (Scenario.algorithm 18 0 0 1000 10000) Scenario.slice))
  = [SetHoldings "SPY" (Py.float 0.05)].
Proof. reflexivity. Qed.

End MainRuns.

(* ------------------------------------------------------------------ *)
(** ** Execute where the rounding decides                               *)
(* ------------------------------------------------------------------ *)

Section Rounding.
Import Lean AssetArbitrageStrategy Rules.
Local Open Scope Q_scope.

(** The literals of [__init__] are doubles, not the decimals they are
    written as. *)
Example literals :
  Py.float 0.05 = 3602879701896397 # 72057594037927936 /\
  Py.float 0.03 = 1080863910568919 # 36028797018963968 /\
  Py.float 0.80 = 3602879701896397 # 4503599627370496 /\
  Py.add (Py.float 0.1) (Py.float 0.2)
    = 1351079888211149 # 4503599627370496.
Proof. vm_compute. repeat split. Qed.

(** SPY is flat in an account whose three other positions are worth
    74106.7, 61276.69 and 20900.89, in this order, for a total value of
    195355.35.  The sum of the absolute holding values over the total
    does not exceed 0.80, and every other condition of the long entry
    holds; the ratio the code computes is above the maximum, and no
    entry is made. *)
Lemma Execute_long_entry_counterexample :
  let self := init "SPY" in
  let indicators := Scenario.indicators 19 20 21 25 17 in
  let algorithm :=
    Scenario.account 18
      (Py.float 74106.7, Py.float 61276.69, Py.float 20900.89)
      (Py.float 195355.35) in
  let holding :=
    {| Quantity := 0; AveragePrice := 0; HoldingsValue := 0 |} in
  CustomBollingerBands.HasSignal (contrarian_bands indicators) = true /\
  RSIIndicator.HasSignal (rsi indicators) = true /\
  Securities algorithm !! symbol self = Some {| Price := Some 18 |} /\
  0 < 18 /\
  Portfolio algorithm !! symbol self = Some holding /\
  Quantity holding == 0 /\
  Spec.exposure_ratio algorithm <= 0.80 /\
  Spec.exposure_ratio algorithm <= max_portfolio_exposure self /\
  18 < LowerBand (CustomBollingerBands.bbands (contrarian_bands indicators)) /\
  Current (RSIIndicator.rsi (rsi indicators)) < 30 /\
  TrendFilter.IsUptrend (trend indicators) algorithm = Py.Ok true /\
  Execute self indicators algorithm =
    ([Debug (ExposureExceeded "SPY" (7205759403792795 # 9007199254740992))],
     Py.Ok tt) /\
  orders (Py.calls (Execute self indicators algorithm)) = [].
Proof.
  cbv zeta.
  repeat match goal with |- _ /\ _ => split end;
    vm_compute; first [ reflexivity | discriminate ].
Qed.

(** An exposure ratio equal to the maximum does not close the gate: with
    another holding worth 6553.6 and a total of 8192 the ratio is the
    double 0.8, and the long entry is made. *)
Example Execute_at_the_maximum :
  portfolio_exposure (Scenario.algorithm 18 0 0 (Py.float 6553.6) 8192)
    = Py.Ok (Py.float 0.80) /\
  Execute (init "SPY") (Scenario.indicators 19 20 21 25 17)
    (Scenario.algorithm 18 0 0 (Py.float 6553.6) 8192)
  = ([SetHoldings "SPY" (Py.float 0.05)], Py.Ok tt).
Proof. vm_compute. repeat split. Qed.

(** A long position at average price 1.0 and price 0.95: the stop level
    [1.0 * (1 - 0.05)] is the double 0.95 itself, the price is not below
    it, and only the exit at the middle band 0.9 liquidates. *)
Example Execute_at_the_long_stop_level :
  long_stop_level (init "SPY")
    {| Quantity := 1; AveragePrice := 1; HoldingsValue := Py.float 0.95 |}
  = Py.float 0.95 /\
  Execute (init "SPY") (Scenario.indicators 0.5 0.9 1.5 50 23)
    (Scenario.algorithm (Py.float 0.95) 1 1 1000 10000)
  = ([Liquidate "SPY"], Py.Ok tt).
Proof. vm_compute. repeat split. Qed.

(** A short position at average price 1.0 and price 1.03: the stop level
    [1.0 * (1 + 0.03)] is the double 1.03, and nothing is done. *)
Example Execute_at_the_short_stop_level :
  short_stop_level (init "SPY")
    {| Quantity := -1; AveragePrice := 1; HoldingsValue := - Py.float 1.03 |}
  = Py.float 1.03 /\
  Execute (init "SPY") (Scenario.indicators 0.5 1 1.5 50 23)
    (Scenario.algorithm (Py.float 1.03) (-1) 1 1000 10000)
  = ([], Py.Ok tt).
Proof. vm_compute. repeat split. Qed.

End Rounding.

(* ------------------------------------------------------------------ *)
(** ** main.py: removal and return of a symbol, orders by symbol        *)
(* ------------------------------------------------------------------ *)

Section Lifecycle.
Import Lean Engine VolatilityArbitrage.
Context {B S T : Type} `{!BollingerBands B, !Indicator S, !Indicator T}.
Context `{!Factory B S T, !Broker}.

(** An event that does not add a symbol leaves it untracked. *)
Lemma handle_keeps_untracked (self : VolatilityArbitrage.t B S T)
    (event : Event) (s : string) :
  Dict.get (symbol_data self) s = None ->
  ~ adds s event ->
  Dict.get (symbol_data (handle self event)) s = None.
Proof.
  intros E N. destruct event as [changes | IsWarmingUp algorithm data]; simpl.
  - unfold OnSecuritiesChanged. simpl.
    apply get_removed_gone. left.
    apply get_added_absent; assumption.
  - apply get_None_keys. apply get_None_keys in E.
    unfold OnData. destruct IsWarmingUp; simpl; [ exact E | ].
    rewrite OnData_loop_keys. exact E.
Qed.

Lemma handle_all_keeps_untracked (events : list Event)
    (self : VolatilityArbitrage.t B S T) (s : string) :
  Dict.get (symbol_data self) s = None ->
  Forall (fun event => ~ adds s event) events ->
  Dict.get (symbol_data (fold_left handle events self)) s = None.
Proof.
  revert self. induction events as [ | event events IH]; intros self E A; simpl.
  - exact E.
  - inversion A as [ | ? ? N A']; subst.
    apply IH; [ apply handle_keeps_untracked; assumption | exact A' ].
Qed.

(** X20.  A symbol that is removed, and added again by a later change of
    the universe, starts from new indicators and a new strategy,
    whatever slices of data and whatever changes that do not add it came
    in between: nothing of its state before the removal is left. *)
Theorem OnSecuritiesChanged_readd_is_fresh (self : VolatilityArbitrage.t B S T)
    (removal : SecurityChanges) (between : list Event)
    (addition : SecurityChanges) (s : string) :
  In s (RemovedSecurities removal) ->
  Forall (fun event => ~ adds s event) between ->
  In s (AddedSecurities addition) ->
  ~ In s (RemovedSecurities addition) ->
  Dict.get
    (symbol_data
       (OnSecuritiesChanged
          (fold_left handle between (OnSecuritiesChanged self removal))
          addition)) s
  = Some (new_symbol_data s).
Proof.
  intros Ir A Ia Ir'. unfold OnSecuritiesChanged at 1. simpl.
  rewrite get_removed_kept by exact Ir'.
  apply get_added_new; [ | exact Ia ].
  apply handle_all_keeps_untracked; [ | exact A ].
  unfold OnSecuritiesChanged. simpl.
  apply get_removed_gone. right. exact Ir.
Qed.

Lemma filter_none {A} (f : A -> bool) (l : list A) :
  (forall x, In x l -> f x = false) -> List.filter f l = [].
Proof.
  induction l as [ | x l IH]; simpl; intros N; [ reflexivity | ].
  rewrite (N x) by (left; reflexivity).
  apply IH. intros y I. apply N. right. exact I.
Qed.

Lemma filter_fewer {A} (f g : A -> bool) (l : list A) :
  (forall x, f x = true -> g x = true) ->
  (length (List.filter f l) <= length (List.filter g l))%nat.
Proof.
  intros Imp. induction l as [ | x l IH]; simpl; [ lia | ].
  destruct (f x) eqn:F.
  - rewrite (Imp x F). simpl. lia.
  - destruct (g x); simpl; lia.
Qed.

Lemma is_order_for_order (k : string) (c : Call) :
  is_order_for k c = true ->
  AssetArbitrageStrategy.is_order c = true /\ target c = Some k.
Proof.
  unfold is_order_for. destruct c as [m | s p | s]; simpl;
    try discriminate; intros E; apply String.eqb_eq in E; subst; auto.
Qed.

(** The orders of one evaluation are for the strategy's own symbol. *)
Lemma Execute_orders_for (self : AssetArbitrageStrategy.t)
    (indicators : AssetArbitrageStrategy.Indicators B S T)
    (algorithm : QCAlgorithm) (k : string) :
  (length (List.filter (is_order_for k)
             (Py.calls (AssetArbitrageStrategy.Execute self indicators algorithm)))
   <= 2)%nat /\
  (AssetArbitrageStrategy.symbol self <> k ->
   List.filter (is_order_for k)
     (Py.calls (AssetArbitrageStrategy.Execute self indicators algorithm)) = []).
Proof.
  split.
  - etransitivity; [ | apply (Execute_at_most_two_orders self indicators algorithm) ].
    apply filter_fewer. intros c F. apply is_order_for_order in F. tauto.
  - intros N. apply filter_none. intros c I.
    destruct (is_order_for k c) eqn:F; [ exfalso | reflexivity ].
    apply is_order_for_order in F. destruct F as (O & Tg).
    destruct (Execute_order_kinds _ _ _ _ I O) as [-> | [-> | ->]];
      simpl in Tg; injection Tg as Tg; contradiction.
Qed.

Lemma OnData_loop_nothing_for (items : Dict.t (SymbolData B S T))
    (data : Slice) (algorithm : QCAlgorithm) (k : string) :
  Forall (fun entry => keyed (fst entry) (snd entry)) items ->
  ~ In k (Dict.keys items) \/ data !! k = None ->
  List.filter (is_order_for k) (made (OnData_loop items data algorithm)) = [].
Proof.
  intros K N. apply filter_none. intros c I.
  destruct (is_order_for k c) eqn:F; [ exfalso | reflexivity ].
  apply is_order_for_order in F. destruct F as (O & Tg).
  destruct (OnData_loop_targets items data algorithm c K I O)
    as (k' & Tg' & Ik & Hd).
  rewrite Tg in Tg'. injection Tg' as <-.
  destruct N as [N | N]; contradiction.
Qed.

Lemma OnData_loop_per_symbol (items : Dict.t (SymbolData B S T))
    (data : Slice) (algorithm : QCAlgorithm) (k : string) :
  well_keyed items ->
  (length (List.filter (is_order_for k)
             (made (OnData_loop items data algorithm))) <= 2)%nat.
Proof.
  intros (N & K). revert algorithm.
  induction K as [ | [symbol data_set] rest Kh Krest IH]; intros algorithm;
    simpl; [ lia | ].
  simpl in Kh, N. apply NoDup_cons in N. destruct N as (Nk & N).
  specialize (IH N).
  destruct (data !! symbol) as [entry | ] eqn:E; [ | apply IH ].
  pose proof (Execute_orders_for (strategy data_set)
                (execute_argument
                   (update_indicators (indicators data_set) data))
                algorithm k) as (Two & Other).
  destruct (AssetArbitrageStrategy.Execute _ _ _) as [calls [[] | e]];
    simpl in *; [ | exact Two ].
  rewrite List.filter_app, length_app.
  destruct (string_dec symbol k) as [-> | D].
  - rewrite (OnData_loop_nothing_for rest data _ k Krest).
    + simpl. lia.
    + left. intros I. apply Nk, list_elem_of_In, I.
  - destruct Kh as (Ks & _). rewrite Other by (rewrite Ks; exact D).
    simpl. apply IH.
Qed.

(** X26.  With [symbol_data] well keyed, [OnData] makes at most two
    position-changing calls for any one symbol, and none for a symbol
    that is not tracked or is not a key of the slice. *)
Theorem OnData_orders_per_symbol (self : VolatilityArbitrage.t B S T)
    (IsWarmingUp : bool) (algorithm : QCAlgorithm) (data : Slice)
    (k : string) :
  well_keyed (symbol_data self) ->
  (length (List.filter (is_order_for k)
             (made (snd (OnData self IsWarmingUp algorithm data)))) <= 2)%nat /\
  (~ In k (Dict.keys (symbol_data self)) \/ data !! k = None ->
   List.filter (is_order_for k)
     (made (snd (OnData self IsWarmingUp algorithm data))) = []).
Proof.
  intros W. unfold OnData. destruct IsWarmingUp; simpl.
  - split; [ lia | reflexivity ].
  - split.
    + apply OnData_loop_per_symbol, W.
    + apply OnData_loop_nothing_for. destruct W as (_ & K). exact K.
Qed.

End Lifecycle.

Section LifecycleRuns.
Import Lean Engine VolatilityArbitrage PaperEngine.
Local Open Scope Q_scope.

(** SPY, tracked with ready indicators, is removed; a slice with a bar
    for SPY and a change that adds IWM follow; then SPY is added
    again. *)
Lemma OnSecuritiesChanged_readd_is_fresh_witness :
  Dict.get
    (symbol_data
       (OnSecuritiesChanged
          (fold_left handle
             [Data false (Scenario.algorithm 18 0 0 1000 10000) Scenario.slice;
              Changed {| AddedSecurities := ["IWM"]%string;
                         RemovedSecurities := [] |}]
             (OnSecuritiesChanged Session.live
                {| AddedSecurities := [];
                   RemovedSecurities := ["SPY"]%string |}))
          {| AddedSecurities := ["SPY"]%string; RemovedSecurities := [] |}))
    "SPY"
  = Some (new_symbol_data "SPY").
Proof.
  apply OnSecuritiesChanged_readd_is_fresh.
  - left. reflexivity.
  - constructor; [ simpl; tauto | ].
    constructor; [ | constructor ].
    simpl. intros [D | []]. discriminate.
  - left. reflexivity.
  - simpl. tauto.
Defined.

(** The run of [OnData] on the live algorithm: at most two orders for
    SPY. *)
Lemma OnData_orders_per_symbol_witness :
  (length (List.filter (is_order_for "SPY")
             (made (snd (OnData Session.live false
                           (Scenario.algorithm 18 0 0 1000 10000)
                           Scenario.slice)))) <= 2)%nat.
Proof.
  apply (proj1 (OnData_orders_per_symbol Session.live false
                  (Scenario.algorithm 18 0 0 1000 10000) Scenario.slice
                  "SPY" live_well_keyed)).
Defined.

End LifecycleRuns.
